(** * Pre-commit hook wrappers: a shallow embedding and its properties

    The three hooks of [precommit/checks/general] are straight-line Python
    scripts that query git for the staged paths, look at the working
    directory, spawn a collaborator script and turn what they saw into
    printed guidance and an exit code.

    - [prevent_nul_file.py]        : module [PreventNulFile]
    - [validate_agent_pointers.py] : module [ValidateAgentPointers]
    - [organize_scattered_docs.py] : module [OrganizeScatteredDocs]

    The hooks are embedded as computations of a small state-and-exception
    monad over a [World] (working directory and git index) that also logs
    every observable action as an [event].  Text is a [string] whose
    characters stand for code points below 256. *)

From Stdlib Require Import ZArith List String Ascii Bool Lia.
From stdpp Require Import base option gmap strings list.
Import ListNotations.

Open Scope string_scope.
Open Scope Z_scope.

(** ** Python text primitives *)

Module PyStr.

(** [str.isspace] on one character, for code points below 256. *)
Definition isspace (c : ascii) : bool :=
  let n := nat_of_ascii c in
  ((9 <=? n) && (n <=? 13))%nat || ((28 <=? n) && (n <=? 32))%nat
  || (n =? 133)%nat || (n =? 160)%nat.

(** Line boundaries of [str.splitlines] other than CR: LF, VT, FF, FS, GS,
    RS and NEL. *)
Definition is_linebreak (c : ascii) : bool :=
  let n := nat_of_ascii c in
  ((10 <=? n) && (n <=? 12))%nat || ((28 <=? n) && (n <=? 30))%nat
  || (n =? 133)%nat.

Definition is_cr (c : ascii) : bool := (nat_of_ascii c =? 13)%nat.
Definition is_lf (c : ascii) : bool := (nat_of_ascii c =? 10)%nat.

Definition nonempty (s : string) : bool :=
  match s with EmptyString => false | String _ _ => true end.

(** [s.splitlines()]: [cur] is the line read so far.  CR LF counts as one
    boundary, and a trailing boundary opens no last empty line. *)
Fixpoint splitlines_from (cur s : string) : list string :=
  match s with
  | EmptyString => if nonempty cur then [cur] else []
  | String c rest =>
      if is_cr c then
        match rest with
        | String c' rest' =>
            if is_lf c' then cur :: splitlines_from "" rest'
            else cur :: splitlines_from "" rest
        | EmptyString => cur :: splitlines_from "" rest
        end
      else if is_linebreak c then cur :: splitlines_from "" rest
      else splitlines_from (cur ++ String c "") rest
  end.

Definition splitlines (s : string) : list string := splitlines_from "" s.

Fixpoint lstrip (s : string) : string :=
  match s with
  | EmptyString => ""
  | String c rest => if isspace c then lstrip rest else s
  end.

Fixpoint rstrip (s : string) : string :=
  match s with
  | EmptyString => ""
  | String c rest =>
      let rest' := rstrip rest in
      if isspace c && negb (nonempty rest') then "" else String c rest'
  end.

(** [s.strip()] *)
Definition strip (s : string) : string := rstrip (lstrip s).

(** [s.startswith(p)] *)
Fixpoint startswith (p s : string) : bool :=
  match p, s with
  | EmptyString, _ => true
  | String a p', String b s' => Ascii.eqb a b && startswith p' s'
  | String _ _, EmptyString => false
  end.

End PyStr.

(** ** Paths ([pathlib], POSIX flavour, on normalised absolute paths) *)

Module PyPath.

Definition sep : ascii := "/"%char.

(** [a / b] *)
Definition div (a b : string) : string :=
  if String.eqb a "/" then "/" ++ b else a ++ "/" ++ b.

(** What precedes the last separator, when there is one. *)
Fixpoint before_last_sep (s : string) : option string :=
  match s with
  | EmptyString => None
  | String c rest =>
      match before_last_sep rest with
      | Some d => Some (String c d)
      | None => if Ascii.eqb c sep then Some "" else None
      end
  end.

(** What follows the last separator, when there is one. *)
Fixpoint after_last_sep (s : string) : option string :=
  match s with
  | EmptyString => None
  | String c rest =>
      match after_last_sep rest with
      | Some b => Some b
      | None => if Ascii.eqb c sep then Some rest else None
      end
  end.

(** [Path(p).parent] *)
Definition parent (p : string) : string :=
  match before_last_sep p with
  | Some EmptyString => "/"
  | Some d => d
  | None => "."
  end.

(** [Path(p).name] *)
Definition name (p : string) : string :=
  match after_last_sep p with
  | Some b => b
  | None => p
  end.

End PyPath.

(** ** A tiny regular-expression engine for [re.match]

    [RELEVANT_PATTERN] only uses literals and alternation under a leading
    [^]; [re.match] anchors at position 0 and accepts any subject that has
    a match as a prefix. *)

Module PyRe.

Inductive regex : Type :=
| Lit (s : string)
| Alt (r1 r2 : regex).

(** [re.compile("^(?:" r ")").match(subject) is not None] *)
Fixpoint matches (r : regex) (subject : string) : bool :=
  match r with
  | Lit s => PyStr.startswith s subject
  | Alt r1 r2 => matches r1 subject || matches r2 subject
  end.

End PyRe.

(** ** The world the hooks run in *)

Definition nl : string := String (ascii_of_nat 10) "".

Inductive node : Type :=
| RegularFile
| Directory.

Global Instance node_eq_dec : EqDecision node.
Proof. solve_decision. Defined.

(** The working tree by absolute path; the lines of git's listing of the
    staged changes, one per path, each as git prints it (a name with
    control characters, quotes or non-ASCII bytes is printed escaped and in
    double quotes, any other name as it is); whether directory entries may
    be deleted; and whether [git reset HEAD path] succeeds, which takes an
    index that can be rewritten and a [HEAD] that names a commit (it does
    not before the first commit). *)
Record World : Type := mkWorld {
  fs : gmap string node;
  index : list string;
  may_unlink : bool;
  may_reset : bool;
}.

Definition set_fs (f : gmap string node) (w : World) : World :=
  {| fs := f; index := index w; may_unlink := may_unlink w; may_reset := may_reset w |}.

Definition set_index (i : list string) (w : World) : World :=
  {| fs := fs w; index := i; may_unlink := may_unlink w; may_reset := may_reset w |}.

Inductive stream : Type :=
| Stdout
| Stderr.

Global Instance stream_eq_dec : EqDecision stream.
Proof. solve_decision. Defined.

(** What a run of a hook does that can be observed from outside. *)
Inductive event : Type :=
| Output (s : stream) (text : string)       (* the hook writes to its stream *)
| Child (s : stream) (text : string)       (* a child writes to the inherited stream *)
| Stat (path : string)                     (* exists() / is_file() *)
| Unlink (path : string)                   (* unlink() is attempted *)
| Spawn (argv : list string) (dir : option string) (capture : bool).

Global Instance event_eq_dec : EqDecision event.
Proof. solve_decision. Defined.

(** [SystemExit] is a [BaseException] only: [except Exception] lets it pass. *)
Inductive exn : Type :=
| SystemExit (code : Z)
| Exception (kind : string).

Inductive res (A : Type) : Type :=
| Val (a : A)
| Exc (e : exn).
Arguments Val {A} a.
Arguments Exc {A} e.

(** How the interpreter process ends: on [SystemExit(code)], the exit code
    being the integer the script handed over, or on a traceback. *)
Inductive outcome : Type :=
| Exited (code : Z)
| Traceback (e : exn).

(** [subprocess.CompletedProcess]; the texts are [None] when not captured. *)
Record CompletedProcess : Type := mkCompleted {
  returncode : Z;
  stdout : option string;
  stderr : option string;
}.

(** What a finished child leaves: exit code, what it wrote to stdout and to
    stderr. *)
Definition finished : Type := (Z * string * string)%type.

(** The parts of the host the sources read but do not define:
    [sys.executable], [Path.cwd()], the resolved [__file__] of the
    scattered-docs hook, and what the operating system does when asked to
    run a command other than git (the collaborator scripts, which may
    change the world). *)
Record Host : Type := mkHost {
  sys_executable : string;
  cwd : string;
  hook_file : string;
  run_other : list string -> option string -> World -> finished * World;
}.

(** ** The monad of hook computations *)

Definition M (A : Type) : Type := World -> res A * World * list event.

Definition ret {A} (a : A) : M A := fun w => (Val a, w, []).

Definition bind {A B} (m : M A) (k : A -> M B) : M B :=
  fun w =>
    match m w with
    | (Val a, w1, t1) => let '(r, w2, t2) := k a w1 in (r, w2, (t1 ++ t2)%list)
    | (Exc e, w1, t1) => (Exc e, w1, t1)
    end.

Definition raise {A} (e : exn) : M A := fun w => (Exc e, w, []).

Definition emit (ev : event) : M unit := fun w => (Val tt, w, [ev]).

(** [try: body / except Exception: handler] *)
Definition try_except {A} (body handler : M A) : M A :=
  fun w =>
    match body w with
    | (Exc (Exception _), w1, t1) =>
        let '(r, w2, t2) := handler w1 in (r, w2, (t1 ++ t2)%list)
    | other => other
    end.

Declare Scope hook_scope.
Delimit Scope hook_scope with hook.
Notation "x <- m ;; k" := (bind m (fun x => k))
  (at level 100, m at next level, right associativity) : hook_scope.
Notation "m ;;; k" := (bind m (fun _ => k))
  (at level 100, right associativity) : hook_scope.

Definition exit_of (r : outcome * World * list event) : outcome := r.1.1.
Definition world_of (r : outcome * World * list event) : World := r.1.2.
Definition trace_of (r : outcome * World * list event) : list event := r.2.

(** All the text a run put on one of the hook's streams, in order. *)
Fixpoint written (s : stream) (t : list event) : string :=
  match t with
  | [] => ""
  | Output s' text :: t' =>
      if decide (s = s') then text ++ written s t' else written s t'
  | Child s' text :: t' =>
      if decide (s = s') then text ++ written s t' else written s t'
  | _ :: t' => written s t'
  end.

(** Only what the hook itself wrote. *)
Fixpoint written_by_hook (s : stream) (t : list event) : string :=
  match t with
  | [] => ""
  | Output s' text :: t' =>
      if decide (s = s') then text ++ written_by_hook s t' else written_by_hook s t'
  | _ :: t' => written_by_hook s t'
  end.

(** ** What the environment does *)

(** One path per line, as [git diff --name-only] prints them. *)
Definition unlines (l : list string) : string :=
  fold_right (fun p acc => p ++ nl ++ acc) "" l.

(** The double quote git puts around a name it prints escaped. *)
Definition dq : string := String (ascii_of_nat 34) EmptyString.

(** Whether a line of git's listing falls under the pathspec [path]: the
    path itself, or anything below the directory of that name, printed as
    it is or in double quotes.  ([path] is free of glob characters and of
    characters git escapes, as [nul] is.) *)
Definition under_pathspec (path line : string) : bool :=
  String.eqb line path
  || PyStr.startswith (path ++ "/") line
  || PyStr.startswith (dq ++ path ++ "/") line.

(** The two git commands the hooks issue: listing the staged paths leaves
    the world alone; [reset HEAD path], when it succeeds, takes everything
    under the pathspec [path] out of the staged changes, and when it fails
    leaves the index as it is.  Any other command line is a usage error. *)
Definition git (args : list string) (w : World) : finished * World :=
  if decide (args = ["diff"; "--cached"; "--name-only"]) then
    ((0, unlines (index w), ""), w)
  else
    match args with
    | [sub; rev; path] =>
        if decide (sub = "reset" ∧ rev = "HEAD") then
          if may_reset w then
            ((0, "", ""),
             set_index (List.filter (fun p => negb (under_pathspec path p)) (index w)) w)
          else ((128, "", "fatal: reset failed" ++ nl), w)
        else ((129, "", ""), w)
    | _ => ((129, "", ""), w)
    end.

Definition os_exec (H : Host) (argv : list string) (dir : option string)
    (w : World) : finished * World :=
  match argv with
  | prog :: args =>
      if String.eqb prog "git" then git args w else run_other H argv dir w
  | [] => run_other H argv dir w
  end.

(** [subprocess.run(argv, cwd=dir, capture_output=capture, text=True)]:
    the parent blocks until the child is done; a child that is not captured
    writes straight to the parent's streams.  The programs the hooks spawn
    are git and the interpreter that runs the hook itself, so the spawn as
    such does not fail; a non-zero exit code raises nothing. *)
Definition subprocess_run (H : Host) (argv : list string) (dir : option string)
    (capture : bool) : M CompletedProcess :=
  fun w =>
    let '((rc, out, err), w') := os_exec H argv dir w in
    if capture then
      (Val (mkCompleted rc (Some out) (Some err)), w', [Spawn argv dir true])
    else
      (Val (mkCompleted rc None None), w',
       [Spawn argv dir false; Child Stdout out; Child Stderr err]).

(** [Path.exists()] *)
Definition Path_exists (p : string) : M bool :=
  fun w => (Val (bool_decide (is_Some (fs w !! p))), w, [Stat p]).

(** [Path.is_file()] *)
Definition Path_is_file (p : string) : M bool :=
  fun w => (Val (bool_decide (fs w !! p = Some RegularFile)), w, [Stat p]).

(** [Path.unlink(missing_ok=True)] *)
Definition Path_unlink (p : string) : M unit :=
  fun w =>
    match fs w !! p with
    | None => (Val tt, w, [Unlink p])
    | Some Directory => (Exc (Exception "IsADirectoryError"), w, [Unlink p])
    | Some RegularFile =>
        if may_unlink w then (Val tt, set_fs (delete p (fs w)) w, [Unlink p])
        else (Exc (Exception "PermissionError"), w, [Unlink p])
    end.

(** [a() and b()] *)
Definition and_then (a b : M bool) : M bool :=
  (x <- a ;; if x then b else ret false)%hook.

(** [sys.stdout.write(text)] / [sys.stderr.write(text)] *)
Definition write (s : stream) (text : string) : M unit := emit (Output s text).

(** The same on a text that may be [None]. *)
Definition write_captured (s : stream) (text : option string) : M unit :=
  match text with
  | Some t => write s t
  | None => raise (Exception "TypeError")
  end.

(** [print(text)] *)
Definition print (text : string) : M unit := write Stdout (text ++ nl).

(** [str(x)] on a text that may be [None]. *)
Definition str_of (text : option string) : string :=
  match text with Some t => t | None => "None" end.

(** [text.splitlines()] on a text that may be [None]. *)
Definition splitlines_of (text : option string) : M (list string) :=
  match text with
  | Some t => ret (PyStr.splitlines t)
  | None => raise (Exception "AttributeError")
  end.

(** [sys.exit(code)] *)
Definition sys_exit {A} (code : Z) : M A := raise (SystemExit code).

(** Running a script to its end: [SystemExit(code)] ends the process with
    [code], falling off the end with 0, anything else with a traceback. *)
Definition interpreter (script : M unit) (w : World) : outcome * World * list event :=
  match script w with
  | (Val _, w', t) => (Exited 0, w', t)
  | (Exc (SystemExit code), w', t) => (Exited code, w', t)
  | (Exc e, w', t) => (Traceback e, w', t)
  end.

(** ** prevent_nul_file.py *)

Module PreventNulFile.
Section WithHost.
Context (H : Host).
Local Open Scope hook_scope.

Definition run (cmd : list string) : M CompletedProcess :=
  subprocess_run H cmd None true.

(** [{line.strip() for line in lines if line.strip()}] *)
Definition staged_set (lines : list string) : gset string :=
  list_to_set (List.filter PyStr.nonempty (List.map PyStr.strip lines)).

Definition main : M Z :=
  let repo_root := cwd H in
  let nul_path := PyPath.div repo_root "nul" in
  diff <- run ["git"; "diff"; "--cached"; "--name-only"] ;;
  lines <- splitlines_of (stdout diff) ;;
  let staged := staged_set lines in
  if bool_decide ("nul" ∈ staged) then
    write Stdout (nl ++ "ERROR: Attempting to commit Windows 'nul' file" ++ nl ++ nl) ;;;
    write Stdout ("The file 'nul' is created by Windows command redirections like:" ++ nl) ;;;
    write Stdout ("  dir /s /b *.json 2>nul" ++ nl ++ nl) ;;;
    write Stdout ("Solutions:" ++ nl) ;;;
    write Stdout ("  1. Use PowerShell: Get-ChildItem -Recurse -Filter *.json" ++ nl) ;;;
    write Stdout ("  2. Use bash/Git Bash: find . -name '*.json' 2>/dev/null" ++ nl) ;;;
    write Stdout ("  3. Don't redirect stderr: dir /s /b *.json" ++ nl ++ nl) ;;;
    write Stdout ("Auto-cleanup: Removing 'nul' file and unstaging..." ++ nl) ;;;
    try_except
      (there <- and_then (Path_exists nul_path) (Path_is_file nul_path) ;;
       if there then Path_unlink nul_path else ret tt)
      (ret tt) ;;;
    run ["git"; "reset"; "HEAD"; "nul"] ;;;
    write Stdout ("Fixed! Please commit again." ++ nl) ;;;
    ret 1
  else
    there <- and_then (Path_exists nul_path) (Path_is_file nul_path) ;;
    (if there then
       write Stdout (nl ++ "WARNING: Found 'nul' file in working directory" ++ nl) ;;;
       write Stdout ("Auto-cleanup: Removing it..." ++ nl) ;;;
       try_except
         (Path_unlink nul_path ;;;
          write Stdout ("Cleaned up." ++ nl))
         (write Stdout ("Could not remove 'nul' file; please remove manually." ++ nl))
     else ret tt) ;;;
    ret 0.

(** [raise SystemExit(main())] *)
Definition script : M unit := code <- main ;; sys_exit code.

Definition hook (w : World) : outcome * World * list event :=
  interpreter script w.

End WithHost.

(** The [staged] set the guard computes in world [w]. *)
Definition staged (w : World) : gset string :=
  staged_set (PyStr.splitlines (unlines (index w))).

(** Where the guard looks for the stray file. *)
Definition nul_path (H : Host) : string := PyPath.div (cwd H) "nul".

End PreventNulFile.

(** ** validate_agent_pointers.py *)

Module ValidateAgentPointers.

Import PyRe.

(** [^(?:\.agent/|CLAUDE\.md|AGENTS\.md|\.github/copilot-instructions\.md|\.windsurf/rules\.md)] *)
Definition RELEVANT_PATTERN : regex :=
  Alt (Lit ".agent/")
    (Alt (Lit "CLAUDE.md")
       (Alt (Lit "AGENTS.md")
          (Alt (Lit ".github/copilot-instructions.md")
             (Lit ".windsurf/rules.md")))).

(** [[line.strip() for line in lines if line.strip()]] *)
Definition staged_list (lines : list string) : list string :=
  List.filter PyStr.nonempty (List.map PyStr.strip lines).

Section WithHost.
Context (H : Host).
Local Open Scope hook_scope.

Definition run (cmd : list string) : M CompletedProcess :=
  subprocess_run H cmd None true.

Definition main : M Z :=
  let repo_root := cwd H in
  diff <- run ["git"; "diff"; "--cached"; "--name-only"] ;;
  lines <- splitlines_of (stdout diff) ;;
  let staged := staged_list lines in
  if existsb (matches RELEVANT_PATTERN) staged then
    write Stdout ("Detected changes to agent files or pointer files" ++ nl) ;;;
    let generator :=
      PyPath.div (PyPath.div (PyPath.div repo_root ".agent") "scripts")
        "generate_pointers.py" in
    present <- Path_exists generator ;;
    if negb present then
      write Stderr ("Error: .agent/scripts/generate_pointers.py not found." ++ nl) ;;;
      ret 1
    else
      proc <- run [sys_executable H; generator; "--check"] ;;
      if returncode proc =? 0 then
        write Stdout ("Agent pointer files are up to date" ++ nl) ;;;
        ret 0
      else
        write Stdout (nl ++ "Agent pointer files are out of sync!" ++ nl ++ nl) ;;;
        write Stdout ("To fix, run:" ++ nl) ;;;
        write Stdout ("  " ++ PyPath.name (sys_executable H) ++ " " ++ generator ++ nl) ;;;
        write Stdout
          ("  git add CLAUDE.md AGENTS.md .github/copilot-instructions.md .windsurf/rules.md"
             ++ nl ++ nl) ;;;
        write_captured Stdout (stdout proc) ;;;
        write_captured Stderr (stderr proc) ;;;
        ret 1
  else
    write Stdout ("No agent files modified, skipping validation" ++ nl) ;;;
    ret 0.

(** [raise SystemExit(main())] *)
Definition script : M unit := code <- main ;; sys_exit code.

Definition hook (w : World) : outcome * World * list event :=
  interpreter script w.

(** Where the validator expects the generator, and how it calls it. *)
Definition generator : string :=
  PyPath.div (PyPath.div (PyPath.div (cwd H) ".agent") "scripts")
    "generate_pointers.py".

Definition check_command : list string :=
  [sys_executable H; generator; "--check"].

End WithHost.

(** The [staged] list the validator computes in world [w]. *)
Definition staged (w : World) : list string :=
  staged_list (PyStr.splitlines (unlines (index w))).

End ValidateAgentPointers.

(** ** organize_scattered_docs.py *)

Module OrganizeScatteredDocs.

(** What [parser.parse_args()] hands back: the [--auto-fix] switch. *)
Record Namespace : Type := mkNamespace { auto_fix : bool }.

Section WithHost.
Context (H : Host).
Local Open Scope hook_scope.

Definition SCRIPT_DIR : string := PyPath.parent (hook_file H).
Definition ROOT_DIR : string :=
  PyPath.parent (PyPath.parent (PyPath.parent SCRIPT_DIR)).
Definition ORGANIZE_SCRIPT : string :=
  PyPath.div (PyPath.div (PyPath.div (PyPath.div ROOT_DIR "git-hooks") "checks")
                "python") "organize_docs.py".

(** [main()] from the point where the arguments are parsed. *)
Definition main (args : Namespace) : M unit :=
  if auto_fix args then
    print "Auto-organizing scattered documentation files..." ;;;
    result <- subprocess_run H [sys_executable H; ORGANIZE_SCRIPT; "--auto-move"]
                (Some ROOT_DIR) false ;;
    (if returncode result =? 0 then
       print "SUCCESS: Documentation organization completed successfully"
     else
       print "ERROR: Documentation organization failed") ;;;
    sys_exit (returncode result)
  else
    result <- subprocess_run H [sys_executable H; ORGANIZE_SCRIPT; "--dry-run"]
                (Some ROOT_DIR) true ;;
    if returncode result =? 0 then
      print "SUCCESS: All documentation files are properly organized" ;;;
      sys_exit 0
    else
      print "WARNING: Scattered documentation files detected!" ;;;
      print (nl ++ "The following files should be organized:") ;;;
      print (str_of (stdout result)) ;;;
      print (nl ++ "To automatically organize these files, run:") ;;;
      print "  python git-hooks/checks/python/organize_docs.py --auto-move" ;;;
      print (nl ++ "Or add --auto-fix to this hook to organize automatically on commit.") ;;;
      sys_exit 1.

Definition hook (args : Namespace) (w : World) : outcome * World * list event :=
  interpreter (main args) w.

(** How the hook calls the organizer in each mode. *)
Definition organizer_command (args : Namespace) : list string :=
  [sys_executable H; ORGANIZE_SCRIPT; if auto_fix args then "--auto-move" else "--dry-run"].

End WithHost.
End OrganizeScatteredDocs.

(** * Vocabulary of the statements *)

(** ** Traces and commands *)

(** Whether a run spawned the command [argv]. *)
Definition spawned (argv : list string) (t : list event) : bool :=
  existsb (fun ev =>
             match ev with
             | Spawn a _ _ => bool_decide (a = argv)
             | _ => false
             end) t.

(** The two git command lines of the sources. *)
Definition git_diff_command : list string := ["git"; "diff"; "--cached"; "--name-only"].
Definition git_reset_nul_command : list string := ["git"; "reset"; "HEAD"; "nul"].

(** The index once everything under the pathspec [path] is unstaged. *)
Definition unstage (path : string) (w : World) : World :=
  set_index (List.filter (fun p => negb (under_pathspec path p)) (index w)) w.

(** ** The nul-file guard *)

(** What the guard prints first when [nul] is staged. *)
Definition nul_banner : list event :=
  [Output Stdout (nl ++ "ERROR: Attempting to commit Windows 'nul' file" ++ nl ++ nl);
   Output Stdout ("The file 'nul' is created by Windows command redirections like:" ++ nl);
   Output Stdout ("  dir /s /b *.json 2>nul" ++ nl ++ nl);
   Output Stdout ("Solutions:" ++ nl);
   Output Stdout ("  1. Use PowerShell: Get-ChildItem -Recurse -Filter *.json" ++ nl);
   Output Stdout ("  2. Use bash/Git Bash: find . -name '*.json' 2>/dev/null" ++ nl);
   Output Stdout ("  3. Don't redirect stderr: dir /s /b *.json" ++ nl ++ nl);
   Output Stdout ("Auto-cleanup: Removing 'nul' file and unstaging..." ++ nl)].

(** The file-system calls of the staged branch, by what sits at [p]. *)
Definition nul_cleanup_calls (p : string) (w : World) : list event :=
  match fs w !! p with
  | Some RegularFile => [Stat p; Stat p; Unlink p]
  | Some Directory => [Stat p; Stat p]
  | None => [Stat p]
  end.

(** What the guard prints and does in the other branch. *)
Definition nul_sweep_calls (p : string) (w : World) : list event :=
  match fs w !! p with
  | Some RegularFile =>
      [Stat p; Stat p;
       Output Stdout (nl ++ "WARNING: Found 'nul' file in working directory" ++ nl);
       Output Stdout ("Auto-cleanup: Removing it..." ++ nl);
       Unlink p;
       Output Stdout (if may_unlink w then "Cleaned up." ++ nl
                     else "Could not remove 'nul' file; please remove manually." ++ nl)]
  | Some Directory => [Stat p; Stat p]
  | None => [Stat p]
  end.

(** The world once the guard has tried to delete [p]: only a regular file
    goes, and only when deleting is permitted. *)
Definition after_unlink (p : string) (w : World) : World :=
  if bool_decide (fs w !! p = Some RegularFile) && may_unlink w
  then set_fs (delete p (fs w)) w else w.

(** The world once the guard has tried to unstage [nul]. *)
Definition after_reset (w : World) : World :=
  if may_reset w then unstage "nul" w else w.

(** The same world with every permission granted. *)
Definition grant (w : World) : World := mkWorld (fs w) (index w) true true.

(** ** The agent-pointer validator *)

(** What the generator's check run leaves in world [w]. *)
Definition check_run (H : Host) (w : World) : finished * World :=
  os_exec H (ValidateAgentPointers.check_command H) None w.

Definition check_rc (H : Host) (w : World) : Z := (check_run H w).1.1.1.
Definition check_out (H : Host) (w : World) : string := (check_run H w).1.1.2.
Definition check_err (H : Host) (w : World) : string := (check_run H w).1.2.
Definition check_world (H : Host) (w : World) : World := (check_run H w).2.

(** Whether some staged path matches [RELEVANT_PATTERN]. *)
Definition relevant_staged (w : World) : bool :=
  existsb (PyRe.matches ValidateAgentPointers.RELEVANT_PATTERN)
    (ValidateAgentPointers.staged w).

(** The validator's opening: the staged-path query, the notice, the test
    for the generator. *)
Definition validator_opening (H : Host) : list event :=
  [Spawn git_diff_command None true;
   Output Stdout ("Detected changes to agent files or pointer files" ++ nl);
   Stat (ValidateAgentPointers.generator H)].

(** What the validator prints when the generator reports stale pointers. *)
Definition out_of_sync_report (H : Host) (out err : string) : list event :=
  [Output Stdout (nl ++ "Agent pointer files are out of sync!" ++ nl ++ nl);
   Output Stdout ("To fix, run:" ++ nl);
   Output Stdout ("  " ++ PyPath.name (sys_executable H) ++ " "
                 ++ ValidateAgentPointers.generator H ++ nl);
   Output Stdout
     ("  git add CLAUDE.md AGENTS.md .github/copilot-instructions.md .windsurf/rules.md"
        ++ nl ++ nl);
   Output Stdout out;
   Output Stderr err].

(** The relevance rule in the specification's words: a path under
    [.agent/], or one of the four pointer files by its exact name. *)
Definition names_agent_file (p : string) : bool :=
  PyStr.startswith ".agent/" p
  || String.eqb p "CLAUDE.md"
  || String.eqb p "AGENTS.md"
  || String.eqb p ".github/copilot-instructions.md"
  || String.eqb p ".windsurf/rules.md".


(** What the validator may do: write, ask git for the staged paths, test
    for the generator, run the generator's check, both children captured. *)
Definition validator_may (H : Host) (ev : event) : Prop :=
  match ev with
  | Output _ _ => True
  | Stat p => p = ValidateAgentPointers.generator H
  | Spawn argv dir capture =>
      (argv = git_diff_command \/ argv = ValidateAgentPointers.check_command H)
      /\ dir = None /\ capture = true
  | Unlink _ => False
  | Child _ _ => False
  end.

(** ** The scattered-docs hook *)

(** The hook without and with [--auto-fix]. *)
Definition warn_mode : OrganizeScatteredDocs.Namespace :=
  OrganizeScatteredDocs.mkNamespace false.
Definition fix_mode : OrganizeScatteredDocs.Namespace :=
  OrganizeScatteredDocs.mkNamespace true.

(** What the organizer's run leaves in world [w]. *)
Definition organizer_run (H : Host) (args : OrganizeScatteredDocs.Namespace)
    (w : World) : finished * World :=
  os_exec H (OrganizeScatteredDocs.organizer_command H args)
    (Some (OrganizeScatteredDocs.ROOT_DIR H)) w.

Definition organizer_rc H args w : Z := (organizer_run H args w).1.1.1.
Definition organizer_out H args w : string := (organizer_run H args w).1.1.2.
Definition organizer_err H args w : string := (organizer_run H args w).1.2.
Definition organizer_world H args w : World := (organizer_run H args w).2.

(** What the hook prints in warn mode when the dry run exits non-zero. *)
Definition scattered_report (out : string) : list event :=
  [Output Stdout ("WARNING: Scattered documentation files detected!" ++ nl);
   Output Stdout (nl ++ "The following files should be organized:" ++ nl);
   Output Stdout (out ++ nl);
   Output Stdout (nl ++ "To automatically organize these files, run:" ++ nl);
   Output Stdout ("  python git-hooks/checks/python/organize_docs.py --auto-move" ++ nl);
   Output Stdout
     (nl ++ "Or add --auto-fix to this hook to organize automatically on commit." ++ nl)].

(** Whether an event is a test of a path. *)
Definition is_stat (ev : event) : bool :=
  match ev with Stat _ => true | _ => false end.

(** ** Tidy paths *)

(** A path that survives the hooks' [splitlines] and [strip] as it is: not
    empty, free of line boundaries, with no white space at either end. *)
Fixpoint no_linebreaks (s : string) : bool :=
  match s with
  | EmptyString => true
  | String c rest => negb (PyStr.is_cr c) && negb (PyStr.is_linebreak c) && no_linebreaks rest
  end.

Definition first_is_space (s : string) : bool :=
  match s with
  | EmptyString => false
  | String c _ => PyStr.isspace c
  end.

Fixpoint last_is_space (s : string) : bool :=
  match s with
  | EmptyString => false
  | String c EmptyString => PyStr.isspace c
  | String _ rest => last_is_space rest
  end.

Definition tidy (p : string) : bool :=
  PyStr.nonempty p && no_linebreaks p && negb (first_is_space p) && negb (last_is_space p).

(** ** What a hook is seen to do besides printing *)

Definition is_output (ev : event) : bool :=
  match ev with
  | Output _ _ => true
  | Child _ _ => true
  | _ => false
  end.

(** The calls of a run: its trace without what was printed. *)
Definition calls (t : list event) : list event :=
  List.filter (fun ev => negb (is_output ev)) t.

(** What the nul-file guard may do: print on stdout, look at and unlink
    its one path, run the two git commands, captured. *)
Definition guard_may (H : Host) (ev : event) : Prop :=
  match ev with
  | Output s _ => s = Stdout
  | Stat p => p = PreventNulFile.nul_path H
  | Unlink p => p = PreventNulFile.nul_path H
  | Spawn argv dir capture =>
      (argv = git_diff_command \/ argv = git_reset_nul_command)
      /\ dir = None /\ capture = true
  | Child _ _ => False
  end.

(** [n] blanks, and the name [nul] with blanks before and after it. *)
Fixpoint blanks (n : nat) : string :=
  match n with
  | O => EmptyString
  | S n' => String " "%char (blanks n')
  end.

Definition padded_nul (before after : nat) : string :=
  blanks before ++ "nul" ++ blanks after.

(** The five literals of [RELEVANT_PATTERN]. *)
Definition relevant_prefixes : list string :=
  [".agent/"; "CLAUDE.md"; "AGENTS.md"; ".github/copilot-instructions.md";
   ".windsurf/rules.md"].

(** A path component: no separator in it. *)
Fixpoint no_sep (s : string) : bool :=
  match s with
  | EmptyString => true
  | String c rest => negb (Ascii.eqb c PyPath.sep) && no_sep rest
  end.

(** ** Sample hosts and worlds *)

(** A collaborator that always ends the same way and touches nothing. *)
Definition fixed_collaborator (rc : Z) (out err : string) :
    list string -> option string -> World -> finished * World :=
  fun _ _ w => ((rc, out, err), w).

(** A checkout at [/repo] run by [/usr/bin/python3], the scattered-docs hook
    installed under [git-hooks/checks/general]. *)
Definition sample_host (collab : list string -> option string -> World -> finished * World)
    : Host :=
  mkHost "/usr/bin/python3" "/repo"
    "/repo/git-hooks/checks/general/organize_scattered_docs.py" collab.

(** Collaborators that succeed and print nothing. *)
Definition quiet_host : Host := sample_host (fixed_collaborator 0 "" "").

(** [nul] staged and present as a regular file. *)
Definition world_nul_staged : World :=
  mkWorld {[ "/repo/nul" := RegularFile ]} ["src/main.py"; "nul"] true true.


(** [nul] on disk, not staged. *)
Definition world_nul_stray : World :=
  mkWorld {[ "/repo/nul" := RegularFile ]} ["src/main.py"] true true.

(** [nul] staged as a regular file that may be neither deleted nor
    unstaged. *)
Definition world_nul_locked : World :=
  mkWorld {[ "/repo/nul" := RegularFile ]} ["nul"] false false.

(** [AGENTS.md] staged in a checkout that has no generator script. *)
Definition world_pointer_staged_no_generator : World :=
  mkWorld ∅ ["AGENTS.md"] true true.

(** A generator that finds the pointer files stale. *)
Definition stale_host : Host :=
  sample_host (fixed_collaborator 1 ("CLAUDE.md is out of date" ++ nl) ("stale: 1 file" ++ nl)).

(** [AGENTS.md] staged, generator script in place. *)
Definition world_pointer_staged : World :=
  mkWorld {[ "/repo/.agent/scripts/generate_pointers.py" := RegularFile ]}
    ["AGENTS.md"] true true.

(** An organizer that ends with exit code 2. *)
Definition failing_host : Host := sample_host (fixed_collaborator 2 "" "").

(** Only [src/main.py] staged; no [nul], no generator, no organizer. *)
Definition world_clean : World := mkWorld ∅ ["src/main.py"] true true.

(** The interpreter asked to run a script: a script that is not there
    makes it print that it cannot open the file and exit with status 2;
    a script that is there ends as [result] says. *)
Definition interpreter_runs (result : finished) :
    list string -> option string -> World -> finished * World :=
  fun argv _ w =>
    match argv with
    | exe :: script :: _ =>
        match fs w !! script with
        | Some RegularFile => (result, w)
        | _ =>
            ((2, "",
              exe ++ ": can't open file '" ++ script
              ++ "': [Errno 2] No such file or directory" ++ nl), w)
        end
    | _ => (result, w)
    end.

(** Scripts that succeed silently when they are there. *)
Definition interpreter_host : Host := sample_host (interpreter_runs (0, "", "")).

(** An organizer whose dry run fails with text on both of its streams. *)
Definition crashing_host : Host :=
  sample_host (fixed_collaborator 1 ("foo.md should move to docs/" ++ nl)
                 ("organize_docs: cannot read docs/" ++ nl)).

(** A file whose name is [nul] followed by a blank is staged. *)
Definition world_nul_padded : World :=
  mkWorld ∅ ["nul "] true true.


(** * Tactics *)

(** Unfold the monad's operations and compute through them. *)
Ltac mstep :=
  cbv beta iota zeta delta
    [bind ret write emit try_except sys_exit raise print write_captured
     splitlines_of interpreter str_of exit_of trace_of world_of fst snd
     stdout stderr returncode app].

(** Settle a decidable closed proposition by evaluation. *)
Ltac by_evaluation :=
  match goal with
  | |- ?P => apply (bool_decide_eq_true_1 P); vm_compute; reflexivity
  end.

(** One event, then every event of a trace, is among those of
    [validator_may]. *)
Ltac permitted :=
  cbn [validator_may];
  first [ exact I
        | reflexivity
        | split; [first [left; reflexivity | right; reflexivity] | split; reflexivity] ].

Ltac all_permitted :=
  repeat first [apply List.Forall_nil | apply List.Forall_cons; [permitted|]].

(** One event, then every event of a trace, is among those of [guard_may]. *)
Ltac guard_permitted :=
  cbn [guard_may];
  first [ reflexivity
        | split; [first [left; reflexivity | right; reflexivity] | split; reflexivity] ].

Ltac all_guard_permitted :=
  repeat first [apply List.Forall_nil | apply List.Forall_cons; [guard_permitted|]].

(** * Properties *)

(** ** The primitives on examples *)

Example splitlines_mixed :
  PyStr.splitlines
    ("a.md" ++ nl ++ String (ascii_of_nat 13) nl ++ " nul " ++ String (ascii_of_nat 13) "b")
  = ["a.md"; ""; " nul "; "b"].
Proof. reflexivity. Qed.

Example splitlines_trailing : PyStr.splitlines ("a.md" ++ nl) = ["a.md"].
Proof. reflexivity. Qed.

Example strip_both_ends : PyStr.strip ("  nul " ++ nl) = "nul".
Proof. reflexivity. Qed.

Example strip_keeps_inner : PyStr.strip " my file.md" = "my file.md".
Proof. reflexivity. Qed.

Example parent_of_script_dir :
  PyPath.parent "/repo/git-hooks/checks/general" = "/repo/git-hooks/checks".
Proof. reflexivity. Qed.

Example parent_of_root : PyPath.parent "/" = "/".
Proof. reflexivity. Qed.

Example name_of_interpreter : PyPath.name "/usr/bin/python3" = "python3".
Proof. reflexivity. Qed.

Example pattern_on_paths :
  List.map (PyRe.matches ValidateAgentPointers.RELEVANT_PATTERN)
    [".agent/rules/a.md"; "AGENTS.md"; "docs/AGENTS.md"; "src/main.py"; ".agent"]
  = [true; true; false; false; false].
Proof. reflexivity. Qed.

Example organize_script_of_sample_host :
  OrganizeScatteredDocs.ORGANIZE_SCRIPT quiet_host
  = "/repo/git-hooks/checks/python/organize_docs.py".
Proof. reflexivity. Qed.

(** ** Stepping through a hook *)

Lemma os_exec_git H args dir w : os_exec H ("git" :: args) dir w = git args w.
Proof. reflexivity. Qed.

Lemma run_git_diff H w :
  subprocess_run H git_diff_command None true w =
  (Val (mkCompleted 0 (Some (unlines (index w))) (Some "")), w,
   [Spawn git_diff_command None true]).
Proof. reflexivity. Qed.

Lemma run_git_reset H p w :
  exists proc,
    subprocess_run H ["git"; "reset"; "HEAD"; p] None true w =
    (Val proc, if may_reset w then unstage p w else w,
     [Spawn ["git"; "reset"; "HEAD"; p] None true]).
Proof.
  unfold subprocess_run. rewrite os_exec_git.
  change (git ["reset"; "HEAD"; p] w) with
    (if may_reset w then ((0, "", ""), unstage p w)
     else ((128, "", "fatal: reset failed" ++ nl), w)).
  destruct (may_reset w); eauto.
Qed.

(** [nul_path.exists() and nul_path.is_file()] by what sits at the path. *)
Lemma probe_file p w :
  fs w !! p = Some RegularFile ->
  and_then (Path_exists p) (Path_is_file p) w = (Val true, w, [Stat p; Stat p]).
Proof.
  intros E. unfold and_then, Path_exists, Path_is_file, bind, ret.
  rewrite E, bool_decide_eq_true_2 by eauto. cbv beta iota.
  rewrite E, bool_decide_eq_true_2 by eauto. reflexivity.
Qed.

Lemma probe_directory p w :
  fs w !! p = Some Directory ->
  and_then (Path_exists p) (Path_is_file p) w = (Val false, w, [Stat p; Stat p]).
Proof.
  intros E. unfold and_then, Path_exists, Path_is_file, bind, ret.
  rewrite E, bool_decide_eq_true_2 by eauto. cbv beta iota.
  rewrite E, bool_decide_eq_false_2 by discriminate. reflexivity.
Qed.

Lemma probe_absent p w :
  fs w !! p = None ->
  and_then (Path_exists p) (Path_is_file p) w = (Val false, w, [Stat p]).
Proof.
  intros E. unfold and_then, Path_exists, Path_is_file, bind, ret. rewrite E.
  rewrite bool_decide_eq_false_2 by (intros [x Hx]; discriminate). reflexivity.
Qed.

Lemma unlink_file p w :
  fs w !! p = Some RegularFile ->
  Path_unlink p w =
  if may_unlink w then (Val tt, set_fs (delete p (fs w)) w, [Unlink p])
  else (Exc (Exception "PermissionError"), w, [Unlink p]).
Proof. intros E. unfold Path_unlink. rewrite E. reflexivity. Qed.

(** ** The nul-file guard *)

(** The guard's run when [nul] is staged. *)
Lemma nul_staged_run H w :
  "nul" ∈ PreventNulFile.staged w ->
  PreventNulFile.hook H w =
  (Exited 1,
   after_reset (after_unlink (PreventNulFile.nul_path H) w),
   (Spawn git_diff_command None true :: nul_banner
    ++ nul_cleanup_calls (PreventNulFile.nul_path H) w
    ++ [Spawn git_reset_nul_command None true;
        Output Stdout ("Fixed! Please commit again." ++ nl)])%list).
Proof.
  intros Hs. unfold PreventNulFile.nul_path.
  unfold PreventNulFile.hook, PreventNulFile.script, PreventNulFile.main,
    PreventNulFile.run.
  set (p := PyPath.div (cwd H) "nul"). clearbody p.
  fold git_diff_command. mstep. rewrite run_git_diff. mstep.
  fold (PreventNulFile.staged w). rewrite (bool_decide_eq_true_2 _ Hs).
  unfold after_reset, after_unlink, nul_cleanup_calls, nul_banner.
  destruct (fs w !! p) as [[|]|] eqn:E.
  - rewrite (probe_file _ _ E), (unlink_file _ _ E).
    rewrite bool_decide_eq_true_2 by reflexivity.
    destruct (may_unlink w) eqn:Eu; mstep.
    + destruct (run_git_reset H "nul" (set_fs (delete p (fs w)) w)) as [proc ->].
      reflexivity.
    + destruct (run_git_reset H "nul" w) as [proc ->]. reflexivity.
  - rewrite (probe_directory _ _ E).
    rewrite bool_decide_eq_false_2 by discriminate. mstep.
    destruct (run_git_reset H "nul" w) as [proc ->]. reflexivity.
  - rewrite (probe_absent _ _ E).
    rewrite bool_decide_eq_false_2 by discriminate. mstep.
    destruct (run_git_reset H "nul" w) as [proc ->]. reflexivity.
Qed.

(** The guard's run when [nul] is not staged. *)
Lemma nul_unstaged_run H w :
  "nul" ∉ PreventNulFile.staged w ->
  PreventNulFile.hook H w =
  (Exited 0,
   after_unlink (PreventNulFile.nul_path H) w,
   Spawn git_diff_command None true :: nul_sweep_calls (PreventNulFile.nul_path H) w).
Proof.
  intros Hs. unfold PreventNulFile.nul_path.
  unfold PreventNulFile.hook, PreventNulFile.script, PreventNulFile.main,
    PreventNulFile.run.
  set (p := PyPath.div (cwd H) "nul"). clearbody p.
  fold git_diff_command. mstep. rewrite run_git_diff. mstep.
  fold (PreventNulFile.staged w). rewrite (bool_decide_eq_false_2 _ Hs).
  unfold after_unlink, nul_sweep_calls.
  destruct (fs w !! p) as [[|]|] eqn:E.
  - rewrite (probe_file _ _ E), (unlink_file _ _ E).
    rewrite bool_decide_eq_true_2 by reflexivity.
    destruct (may_unlink w) eqn:Eu; reflexivity.
  - rewrite (probe_directory _ _ E).
    rewrite bool_decide_eq_false_2 by discriminate. reflexivity.
  - rewrite (probe_absent _ _ E).
    rewrite bool_decide_eq_false_2 by discriminate. reflexivity.
Qed.

(** Nothing staged under the name and nothing on disk: the guard asks git,
    looks at the path once and leaves with 0; the world is untouched. *)
Lemma nul_nothing_to_do H w :
  "nul" ∉ PreventNulFile.staged w ->
  fs w !! PreventNulFile.nul_path H = None ->
  PreventNulFile.hook H w =
  (Exited 0, w, [Spawn git_diff_command None true; Stat (PreventNulFile.nul_path H)]).
Proof.
  intros Hs E. rewrite (nul_unstaged_run H w Hs).
  unfold after_unlink, nul_sweep_calls. rewrite E.
  rewrite bool_decide_eq_false_2 by discriminate. reflexivity.
Qed.

Lemma staged_world_nul_staged : "nul" ∈ PreventNulFile.staged world_nul_staged.
Proof. by_evaluation. Qed.


Lemma index_after_unlink p w : index (after_unlink p w) = index w.
Proof. unfold after_unlink. destruct (_ && _); reflexivity. Qed.

Lemma may_reset_after_unlink p w : may_reset (after_unlink p w) = may_reset w.
Proof. unfold after_unlink. destruct (_ && _); reflexivity. Qed.

Lemma fs_after_reset w : fs (after_reset w) = fs w.
Proof. unfold after_reset. destruct (may_reset w); reflexivity. Qed.

Lemma unstage_not_in path w : ~ In path (index (unstage path w)).
Proof.
  unfold unstage. cbn [index set_index]. intros Hin.
  apply filter_In in Hin as [_ Hneq].
  unfold under_pathspec in Hneq. rewrite String.eqb_refl in Hneq. discriminate.
Qed.


(** C6.  With [nul] staged, whatever the permissions: the guard ends with
    exit code 1 and not with a traceback, the unstage command is issued,
    the unlink is attempted whenever a regular file [nul] is there, and the
    whole sequence of actions is the one of a run in which nothing fails. *)
Theorem nul_remediation_best_effort H w :
  "nul" ∈ PreventNulFile.staged w ->
  exit_of (PreventNulFile.hook H w) = Exited 1
  /\ In (Spawn git_reset_nul_command None true) (trace_of (PreventNulFile.hook H w))
  /\ (fs w !! PreventNulFile.nul_path H = Some RegularFile ->
      In (Unlink (PreventNulFile.nul_path H)) (trace_of (PreventNulFile.hook H w)))
  /\ trace_of (PreventNulFile.hook H w) = trace_of (PreventNulFile.hook H (grant w)).
Proof.
  intros Hs.
  assert (Hg : "nul" ∈ PreventNulFile.staged (grant w)) by exact Hs.
  rewrite (nul_staged_run H w Hs), (nul_staged_run H (grant w) Hg).
  unfold exit_of, trace_of. cbn [fst snd].
  split; [reflexivity|]. split; [|split].
  - right. apply in_or_app. right. apply in_or_app. right. left. reflexivity.
  - intros E. right. apply in_or_app. right. apply in_or_app. left.
    unfold nul_cleanup_calls. rewrite E. right. right. left. reflexivity.
  - reflexivity.
Qed.

Lemma nul_remediation_best_effort_witness :
  exit_of (PreventNulFile.hook quiet_host world_nul_locked) = Exited 1
  /\ In (Spawn git_reset_nul_command None true)
       (trace_of (PreventNulFile.hook quiet_host world_nul_locked))
  /\ In (Unlink "/repo/nul") (trace_of (PreventNulFile.hook quiet_host world_nul_locked)).
Proof.
  assert (Hs : "nul" ∈ PreventNulFile.staged world_nul_locked) by by_evaluation.
  destruct (nul_remediation_best_effort quiet_host world_nul_locked Hs)
    as (Hexit & Hreset & Hunlink & _).
  split; [exact Hexit|]. split; [exact Hreset|]. apply Hunlink. reflexivity.
Defined.

(** ** The agent-pointer validator *)

Lemma validator_skipped_run H w :
  relevant_staged w = false ->
  ValidateAgentPointers.hook H w =
  (Exited 0, w,
   [Spawn git_diff_command None true;
    Output Stdout ("No agent files modified, skipping validation" ++ nl)]).
Proof.
  intros Hr.
  unfold ValidateAgentPointers.hook, ValidateAgentPointers.script,
    ValidateAgentPointers.main, ValidateAgentPointers.run.
  fold git_diff_command. mstep. rewrite run_git_diff. mstep.
  fold (ValidateAgentPointers.staged w). fold (relevant_staged w). rewrite Hr.
  reflexivity.
Qed.

Lemma validator_missing_run H w :
  relevant_staged w = true ->
  fs w !! ValidateAgentPointers.generator H = None ->
  ValidateAgentPointers.hook H w =
  (Exited 1, w,
   (validator_opening H ++
    [Output Stderr ("Error: .agent/scripts/generate_pointers.py not found." ++ nl)])%list).
Proof.
  intros Hr E.
  unfold ValidateAgentPointers.hook, ValidateAgentPointers.script,
    ValidateAgentPointers.main, ValidateAgentPointers.run, validator_opening.
  fold (ValidateAgentPointers.generator H).
  fold git_diff_command. mstep. rewrite run_git_diff. mstep.
  fold (ValidateAgentPointers.staged w). fold (relevant_staged w). rewrite Hr.
  unfold Path_exists. rewrite E.
  rewrite bool_decide_eq_false_2 by (intros [x Hx]; discriminate).
  reflexivity.
Qed.

Lemma validator_checked_run H w :
  relevant_staged w = true ->
  is_Some (fs w !! ValidateAgentPointers.generator H) ->
  ValidateAgentPointers.hook H w =
  (Exited (if check_rc H w =? 0 then 0 else 1),
   check_world H w,
   (validator_opening H
    ++ Spawn (ValidateAgentPointers.check_command H) None true
    :: (if check_rc H w =? 0
        then [Output Stdout ("Agent pointer files are up to date" ++ nl)]
        else out_of_sync_report H (check_out H w) (check_err H w)))%list).
Proof.
  intros Hr E.
  unfold check_rc, check_out, check_err, check_world, check_run.
  unfold ValidateAgentPointers.hook, ValidateAgentPointers.script,
    ValidateAgentPointers.main, ValidateAgentPointers.run, validator_opening,
    out_of_sync_report.
  fold (ValidateAgentPointers.generator H).
  fold (ValidateAgentPointers.check_command H).
  fold git_diff_command. mstep. rewrite run_git_diff. mstep.
  fold (ValidateAgentPointers.staged w). fold (relevant_staged w). rewrite Hr.
  unfold Path_exists. rewrite (bool_decide_eq_true_2 _ E).
  unfold subprocess_run. cbn [negb].
  destruct (os_exec H (ValidateAgentPointers.check_command H) None w)
    as [[[rc out] err] w'].
  mstep. destruct (rc =? 0); reflexivity.
Qed.

Lemma startswith_refl s : PyStr.startswith s s = true.
Proof.
  induction s as [|c s IH]; [reflexivity|].
  cbn [PyStr.startswith]. rewrite Ascii.eqb_refl. exact IH.
Qed.



Lemma diff_is_not_check H :
  bool_decide (git_diff_command = ValidateAgentPointers.check_command H) = false.
Proof. apply bool_decide_eq_false_2. discriminate. Qed.

Lemma check_is_check H :
  bool_decide (ValidateAgentPointers.check_command H = ValidateAgentPointers.check_command H)
  = true.
Proof. apply bool_decide_eq_true_2. reflexivity. Qed.

(** The generator is spawned exactly when a staged path matches the
    pattern and the generator script is there. *)
Lemma validator_spawns_generator H w :
  spawned (ValidateAgentPointers.check_command H)
    (trace_of (ValidateAgentPointers.hook H w))
  = relevant_staged w
    && bool_decide (is_Some (fs w !! ValidateAgentPointers.generator H)).
Proof.
  destruct (relevant_staged w) eqn:Hr.
  - destruct (fs w !! ValidateAgentPointers.generator H) as [n|] eqn:E.
    + rewrite validator_checked_run by (rewrite ?E; eauto).
      rewrite bool_decide_eq_true_2 by eauto.
      unfold trace_of, spawned, validator_opening. cbn [snd app existsb].
      rewrite diff_is_not_check, check_is_check. reflexivity.
    + rewrite validator_missing_run by assumption.
      rewrite bool_decide_eq_false_2 by (intros [x Hx]; discriminate).
      unfold trace_of, spawned, validator_opening. cbn [snd app existsb].
      rewrite diff_is_not_check. reflexivity.
  - rewrite validator_skipped_run by assumption.
    unfold trace_of, spawned. cbn [snd existsb].
    rewrite diff_is_not_check. reflexivity.
Qed.


(** The pattern is a prefix test: a path that merely begins with a pointer
    file's name opens the gate as well. *)
Example pattern_accepts_longer_names :
  names_agent_file "CLAUDE.md.bak" = false
  /\ PyRe.matches ValidateAgentPointers.RELEVANT_PATTERN "CLAUDE.md.bak" = true.
Proof. split; reflexivity. Qed.

(** Only [src/main.py] staged: the validator skips. *)
Example validator_skips_unrelated :
  ValidateAgentPointers.hook stale_host world_clean =
  (Exited 0, world_clean,
   [Spawn git_diff_command None true;
    Output Stdout ("No agent files modified, skipping validation" ++ nl)]).
Proof. vm_compute. reflexivity. Qed.

(** C8.  With a matching staged path and the generator in place, the
    validator runs the generator with [--check], captured; on exit code 0
    it prints the confirmation and exits 0; otherwise it prints the
    out-of-sync notice, the two commands to regenerate and re-stage, the
    generator's captured stdout on stdout and its captured stderr on
    stderr, and exits 1. *)
Theorem validator_runs_check H w :
  relevant_staged w = true ->
  is_Some (fs w !! ValidateAgentPointers.generator H) ->
  ValidateAgentPointers.hook H w =
  (Exited (if check_rc H w =? 0 then 0 else 1),
   check_world H w,
   [Spawn git_diff_command None true;
    Output Stdout ("Detected changes to agent files or pointer files" ++ nl);
    Stat (ValidateAgentPointers.generator H);
    Spawn [sys_executable H; ValidateAgentPointers.generator H; "--check"] None true]
   ++ if check_rc H w =? 0
      then [Output Stdout ("Agent pointer files are up to date" ++ nl)]
      else
        [Output Stdout (nl ++ "Agent pointer files are out of sync!" ++ nl ++ nl);
         Output Stdout ("To fix, run:" ++ nl);
         Output Stdout ("  " ++ PyPath.name (sys_executable H) ++ " "
                       ++ ValidateAgentPointers.generator H ++ nl);
         Output Stdout
           ("  git add CLAUDE.md AGENTS.md .github/copilot-instructions.md .windsurf/rules.md"
              ++ nl ++ nl);
         Output Stdout (check_out H w);
         Output Stderr (check_err H w)])%list.
Proof.
  intros Hr E. rewrite (validator_checked_run H w Hr E). reflexivity.
Qed.

Lemma validator_runs_check_witness :
  exit_of (ValidateAgentPointers.hook stale_host world_pointer_staged) = Exited 1
  /\ written Stderr (trace_of (ValidateAgentPointers.hook stale_host world_pointer_staged))
     = "stale: 1 file" ++ nl
  /\ exit_of (ValidateAgentPointers.hook quiet_host world_pointer_staged) = Exited 0.
Proof.
  assert (Hr : relevant_staged world_pointer_staged = true) by (vm_compute; reflexivity).
  assert (E1 : is_Some (fs world_pointer_staged !! ValidateAgentPointers.generator stale_host))
    by (vm_compute; eauto).
  assert (E2 : is_Some (fs world_pointer_staged !! ValidateAgentPointers.generator quiet_host))
    by (vm_compute; eauto).
  rewrite (validator_runs_check stale_host world_pointer_staged Hr E1).
  rewrite (validator_runs_check quiet_host world_pointer_staged Hr E2).
  repeat split; vm_compute; reflexivity.
Defined.

(** The validator half of C1: a missing generator is found by the test
    that precedes the spawn; the run prints the path it expected on stderr
    and exits 1 without spawning the generator. *)
Lemma validator_missing_generator H w :
  relevant_staged w = true ->
  fs w !! ValidateAgentPointers.generator H = None ->
  exit_of (ValidateAgentPointers.hook H w) = Exited 1
  /\ written Stderr (trace_of (ValidateAgentPointers.hook H w))
     = "Error: .agent/scripts/generate_pointers.py not found." ++ nl
  /\ spawned (ValidateAgentPointers.check_command H)
       (trace_of (ValidateAgentPointers.hook H w)) = false.
Proof.
  intros Hr E. rewrite validator_spawns_generator, Hr, E.
  rewrite (validator_missing_run H w Hr E).
  repeat split.
Qed.

(** The world the validator leaves. *)
Lemma validator_world H w :
  world_of (ValidateAgentPointers.hook H w)
  = (if relevant_staged w
        && bool_decide (is_Some (fs w !! ValidateAgentPointers.generator H))
     then check_world H w else w).
Proof.
  destruct (relevant_staged w) eqn:Hr.
  - destruct (fs w !! ValidateAgentPointers.generator H) as [n|] eqn:E.
    + rewrite validator_checked_run by (rewrite ?E; eauto).
      rewrite bool_decide_eq_true_2 by eauto. reflexivity.
    + rewrite validator_missing_run by assumption.
      rewrite bool_decide_eq_false_2 by (intros [x Hx]; discriminate). reflexivity.
  - rewrite validator_skipped_run by assumption. reflexivity.
Qed.

(** C10.  On every path the validator only writes text, lists the staged
    paths, tests for the generator and runs the generator's check; it
    unlinks nothing and resets nothing.  The world it leaves is the one it
    found, or, when the check ran, the one the generator's check left. *)
Theorem validator_frame H w :
  Forall (validator_may H) (trace_of (ValidateAgentPointers.hook H w))
  /\ world_of (ValidateAgentPointers.hook H w)
     = (if spawned (ValidateAgentPointers.check_command H)
             (trace_of (ValidateAgentPointers.hook H w))
        then check_world H w else w).
Proof.
  split; [|rewrite validator_spawns_generator; apply validator_world].
  destruct (relevant_staged w) eqn:Hr.
  - destruct (fs w !! ValidateAgentPointers.generator H) as [n|] eqn:E.
    + rewrite validator_checked_run by (rewrite ?E; eauto).
      unfold trace_of, validator_opening, out_of_sync_report. cbn [snd app].
      destruct (check_rc H w =? 0); all_permitted.
    + rewrite validator_missing_run by assumption.
      unfold trace_of, validator_opening. cbn [snd app]. all_permitted.
  - rewrite validator_skipped_run by assumption.
    unfold trace_of. cbn [snd]. all_permitted.
Qed.

(** A generator whose check leaves the world alone leaves the validator
    without any effect on the index and the working tree. *)
Corollary validator_report_only_leaves_world H w :
  check_world H w = w -> world_of (ValidateAgentPointers.hook H w) = w.
Proof.
  intros Hw. rewrite validator_world. destruct (_ && _); [exact Hw | reflexivity].
Qed.

(** ** The scattered-docs hook *)

Lemma organize_warn_run H w :
  OrganizeScatteredDocs.hook H warn_mode w =
  (Exited (if organizer_rc H warn_mode w =? 0 then 0 else 1),
   organizer_world H warn_mode w,
   Spawn (OrganizeScatteredDocs.organizer_command H warn_mode)
     (Some (OrganizeScatteredDocs.ROOT_DIR H)) true
   :: (if organizer_rc H warn_mode w =? 0
       then [Output Stdout ("SUCCESS: All documentation files are properly organized" ++ nl)]
       else scattered_report (organizer_out H warn_mode w))).
Proof.
  unfold organizer_rc, organizer_out, organizer_world, organizer_run.
  unfold OrganizeScatteredDocs.hook, OrganizeScatteredDocs.main, scattered_report.
  cbn [OrganizeScatteredDocs.auto_fix warn_mode].
  change [sys_executable H; OrganizeScatteredDocs.ORGANIZE_SCRIPT H; "--dry-run"]
    with (OrganizeScatteredDocs.organizer_command H warn_mode).
  unfold subprocess_run. mstep.
  destruct (os_exec H (OrganizeScatteredDocs.organizer_command H warn_mode)
              (Some (OrganizeScatteredDocs.ROOT_DIR H)) w) as [[[rc out] err] w'].
  mstep. destruct (rc =? 0); reflexivity.
Qed.

Lemma organize_fix_run H w :
  OrganizeScatteredDocs.hook H fix_mode w =
  (Exited (organizer_rc H fix_mode w),
   organizer_world H fix_mode w,
   [Output Stdout ("Auto-organizing scattered documentation files..." ++ nl);
    Spawn (OrganizeScatteredDocs.organizer_command H fix_mode)
      (Some (OrganizeScatteredDocs.ROOT_DIR H)) false;
    Child Stdout (organizer_out H fix_mode w);
    Child Stderr (organizer_err H fix_mode w);
    Output Stdout
      (if organizer_rc H fix_mode w =? 0
       then "SUCCESS: Documentation organization completed successfully" ++ nl
       else "ERROR: Documentation organization failed" ++ nl)]).
Proof.
  unfold organizer_rc, organizer_out, organizer_err, organizer_world, organizer_run.
  unfold OrganizeScatteredDocs.hook, OrganizeScatteredDocs.main.
  cbn [OrganizeScatteredDocs.auto_fix fix_mode].
  change [sys_executable H; OrganizeScatteredDocs.ORGANIZE_SCRIPT H; "--auto-move"]
    with (OrganizeScatteredDocs.organizer_command H fix_mode).
  unfold subprocess_run. mstep.
  destruct (os_exec H (OrganizeScatteredDocs.organizer_command H fix_mode)
              (Some (OrganizeScatteredDocs.ROOT_DIR H)) w) as [[[rc out] err] w'].
  mstep. destruct (rc =? 0); reflexivity.
Qed.

Lemma namespace_cases (args : OrganizeScatteredDocs.Namespace) :
  args = warn_mode \/ args = fix_mode.
Proof. destruct args as [[|]]; [right | left]; reflexivity. Qed.

(** C2 (amended).  In [--auto-fix] mode the hook's exit code is the
    organizer's, whatever it is; in warn mode it is 0 when the organizer
    exits 0 and 1 for every other organizer exit code.  In both modes the
    hook exits 0 exactly when the organizer does. *)
Theorem organize_exit_code H args w :
  exit_of (OrganizeScatteredDocs.hook H args w)
  = Exited (if OrganizeScatteredDocs.auto_fix args then organizer_rc H args w
            else if organizer_rc H args w =? 0 then 0 else 1)
  /\ (exit_of (OrganizeScatteredDocs.hook H args w) = Exited 0
      <-> organizer_rc H args w = 0).
Proof.
  destruct (namespace_cases args) as [-> | ->].
  - rewrite organize_warn_run. unfold exit_of. cbn [fst OrganizeScatteredDocs.auto_fix warn_mode].
    split; [reflexivity|].
    destruct (Z.eqb_spec (organizer_rc H warn_mode w) 0) as [E | E].
    + split; [intros _; exact E | reflexivity].
    + split; [discriminate | contradiction].
  - rewrite organize_fix_run. unfold exit_of. cbn [fst OrganizeScatteredDocs.auto_fix fix_mode].
    split; [reflexivity|]. split; [intros [= E]; exact E | intros ->; reflexivity].
Qed.

(** C2, as stated, fails: in warn mode an organizer exit code of 2 comes
    out of the hook as 1. *)
Lemma organize_warn_remaps_exit_code :
  organizer_rc failing_host warn_mode world_clean = 2
  /\ exit_of (OrganizeScatteredDocs.hook failing_host warn_mode world_clean) = Exited 1
  /\ exit_of (OrganizeScatteredDocs.hook failing_host warn_mode world_clean) <> Exited 2.
Proof.
  split; [vm_compute; reflexivity|]. split; [vm_compute; reflexivity|].
  vm_compute. discriminate.
Qed.

(** The hook never looks for the organizer script: in either mode and in
    every world it spawns the organizer command, and no test of any path
    is made. *)
Lemma organize_spawns_unconditionally H args w :
  spawned (OrganizeScatteredDocs.organizer_command H args)
    (trace_of (OrganizeScatteredDocs.hook H args w)) = true
  /\ existsb is_stat (trace_of (OrganizeScatteredDocs.hook H args w)) = false.
Proof.
  destruct (namespace_cases args) as [-> | ->].
  - rewrite organize_warn_run. unfold trace_of, spawned, scattered_report.
    cbn [snd existsb]. rewrite bool_decide_eq_true_2 by reflexivity.
    split; [reflexivity|]. destruct (_ =? 0); reflexivity.
  - rewrite organize_fix_run. unfold trace_of, spawned. cbn [snd existsb].
    rewrite bool_decide_eq_true_2 by reflexivity. split; reflexivity.
Qed.

(** C1 at the missing organizer script.  The checkout has no
    [git-hooks/checks/python/organize_docs.py]; the hook spawns the
    interpreter on it all the same, tests no path and writes nothing to
    stderr.  In warn mode it reports scattered documentation and exits 1;
    in [--auto-fix] mode it exits with the interpreter's status 2. *)
Theorem organize_missing_script_not_detected :
  fs world_clean !! OrganizeScatteredDocs.ORGANIZE_SCRIPT interpreter_host = None
  /\ OrganizeScatteredDocs.hook interpreter_host warn_mode world_clean
     = (Exited 1, world_clean,
        Spawn ["/usr/bin/python3"; "/repo/git-hooks/checks/python/organize_docs.py";
               "--dry-run"] (Some "/repo") true
        :: scattered_report "")
  /\ written_by_hook Stderr
       (trace_of (OrganizeScatteredDocs.hook interpreter_host warn_mode world_clean)) = ""
  /\ spawned ["/usr/bin/python3"; "/repo/git-hooks/checks/python/organize_docs.py";
              "--auto-move"]
       (trace_of (OrganizeScatteredDocs.hook interpreter_host fix_mode world_clean)) = true
  /\ exit_of (OrganizeScatteredDocs.hook interpreter_host fix_mode world_clean) = Exited 2
  /\ written_by_hook Stderr
       (trace_of (OrganizeScatteredDocs.hook interpreter_host fix_mode world_clean)) = "".
Proof. repeat split; vm_compute; reflexivity. Qed.

(** In warn mode nothing reaches the hook's stderr, whatever the organizer
    wrote to its own. *)
Lemma organize_warn_stderr_silent H w :
  written Stderr (trace_of (OrganizeScatteredDocs.hook H warn_mode w)) = "".
Proof.
  rewrite organize_warn_run. unfold trace_of, scattered_report. cbn [snd].
  destruct (_ =? 0); reflexivity.
Qed.

(** C4 at a failing dry run.  The organizer exits 1 and has written to its
    stderr; the hook prints its warning and the captured stdout, exits 1,
    and writes nothing to stderr: the captured stderr is dropped.  The
    validator, given the same collaborator, writes it out. *)
Theorem organize_warn_drops_captured_stderr :
  organizer_rc crashing_host warn_mode world_clean = 1
  /\ organizer_err crashing_host warn_mode world_clean
     = "organize_docs: cannot read docs/" ++ nl
  /\ OrganizeScatteredDocs.hook crashing_host warn_mode world_clean
     = (Exited 1, world_clean,
        Spawn ["/usr/bin/python3"; "/repo/git-hooks/checks/python/organize_docs.py";
               "--dry-run"] (Some "/repo") true
        :: scattered_report ("foo.md should move to docs/" ++ nl))
  /\ written Stderr
       (trace_of (OrganizeScatteredDocs.hook crashing_host warn_mode world_clean)) = ""
  /\ written Stderr
       (trace_of (ValidateAgentPointers.hook crashing_host world_pointer_staged))
     = "organize_docs: cannot read docs/" ++ nl.
Proof. repeat split; vm_compute; reflexivity. Qed.

(** ** From the index to the staged paths the hooks compute *)

Lemma append_nil_r s : s ++ "" = s.
Proof.
  induction s as [|c s IH]; [reflexivity|].
  change (String c (s ++ "") = String c s). rewrite IH. reflexivity.
Qed.

Lemma append_assoc s1 s2 s3 : (s1 ++ s2) ++ s3 = s1 ++ (s2 ++ s3).
Proof.
  induction s1 as [|c s1 IH]; [reflexivity|].
  change (String c ((s1 ++ s2) ++ s3) = String c (s1 ++ (s2 ++ s3))).
  rewrite IH. reflexivity.
Qed.

Lemma splitlines_from_line p :
  no_linebreaks p = true ->
  forall cur rest,
    PyStr.splitlines_from cur (p ++ nl ++ rest)
    = (cur ++ p) :: PyStr.splitlines_from "" rest.
Proof.
  induction p as [|c p IH]; intros Hp cur rest.
  - rewrite append_nil_r. reflexivity.
  - cbn [no_linebreaks] in Hp.
    apply andb_true_iff in Hp as [Hc Hp]. apply andb_true_iff in Hc as [Hcr Hlb].
    apply negb_true_iff in Hcr, Hlb.
    change (String c p ++ nl ++ rest) with (String c (p ++ nl ++ rest)).
    cbn [PyStr.splitlines_from]. rewrite Hcr, Hlb.
    rewrite (IH Hp). rewrite append_assoc. reflexivity.
Qed.

Lemma tidy_no_linebreaks p : tidy p = true -> no_linebreaks p = true.
Proof.
  unfold tidy. rewrite !andb_true_iff. tauto.
Qed.

Lemma splitlines_unlines l :
  forallb tidy l = true -> PyStr.splitlines (unlines l) = l.
Proof.
  induction l as [|p l IH]; intros Hl; [reflexivity|].
  cbn [forallb] in Hl. apply andb_true_iff in Hl as [Hp Hl].
  unfold PyStr.splitlines. cbn [unlines fold_right].
  rewrite (splitlines_from_line p (tidy_no_linebreaks p Hp)).
  fold (unlines l). fold (PyStr.splitlines (unlines l)). rewrite (IH Hl). reflexivity.
Qed.

Lemma rstrip_tidy s :
  last_is_space s = false -> PyStr.rstrip s = s.
Proof.
  induction s as [|c s IH]; intros Hs; [reflexivity|].
  cbn [PyStr.rstrip]. destruct s as [|c' s'].
  - cbn in Hs |- *. rewrite Hs. reflexivity.
  - rewrite (IH Hs). cbn [PyStr.nonempty negb]. rewrite andb_false_r. reflexivity.
Qed.

Lemma strip_tidy p : tidy p = true -> PyStr.strip p = p.
Proof.
  unfold tidy. rewrite !andb_true_iff, !negb_true_iff.
  intros [[[_ _] Hfirst] Hlast]. unfold PyStr.strip.
  destruct p as [|c p]; [reflexivity|].
  cbn [PyStr.lstrip]. cbn [first_is_space] in Hfirst. rewrite Hfirst.
  apply rstrip_tidy, Hlast.
Qed.

Lemma tidy_nonempty p : tidy p = true -> PyStr.nonempty p = true.
Proof. unfold tidy. rewrite !andb_true_iff. tauto. Qed.

(** On a tidy index the comprehension of both hooks gives back the staged
    paths as git lists them. *)
Lemma staged_list_tidy l :
  forallb tidy l = true ->
  ValidateAgentPointers.staged_list (PyStr.splitlines (unlines l)) = l.
Proof.
  intros Hl. rewrite (splitlines_unlines l Hl).
  unfold ValidateAgentPointers.staged_list.
  induction l as [|p l IH]; [reflexivity|].
  cbn [forallb] in Hl. apply andb_true_iff in Hl as [Hp Hl].
  cbn [List.map List.filter]. rewrite (strip_tidy p Hp), (tidy_nonempty p Hp), (IH Hl).
  reflexivity.
Qed.

Lemma validator_staged_tidy w :
  forallb tidy (index w) = true -> ValidateAgentPointers.staged w = index w.
Proof. apply staged_list_tidy. Qed.

Lemma nul_staged_tidy w :
  forallb tidy (index w) = true ->
  "nul" ∈ PreventNulFile.staged w <-> In "nul" (index w).
Proof.
  intros Hl. unfold PreventNulFile.staged, PreventNulFile.staged_set.
  fold (ValidateAgentPointers.staged_list (PyStr.splitlines (unlines (index w)))).
  rewrite (staged_list_tidy _ Hl), elem_of_list_to_set. apply list_elem_of_In.
Qed.

Lemma tidy_unstage path w :
  forallb tidy (index w) = true -> forallb tidy (index (unstage path w)) = true.
Proof.
  unfold unstage. cbn [index set_index]. rewrite !forallb_forall.
  intros Hl p Hin. apply filter_In in Hin as [Hin _]. apply Hl, Hin.
Qed.

(** ** Every listed line reaches the hooks *)

Lemma append_cons c p s : String c p ++ s = String c (p ++ s).
Proof. reflexivity. Qed.

(** Whatever a line of the listing holds, the lines after it are split as
    if it were not there. *)
Lemma splitlines_from_entry n :
  forall p cur rest,
    (String.length p <= n)%nat ->
    exists ls,
      PyStr.splitlines_from cur (p ++ nl ++ rest)
      = (ls ++ PyStr.splitlines_from "" rest)%list.
Proof.
  induction n as [|n IH]; intros p cur rest Hlen.
  - destruct p; [|cbn in Hlen; lia]. exists [cur]. reflexivity.
  - destruct p as [|c p].
    + exists [cur]. reflexivity.
    + cbn [String.length] in Hlen. rewrite append_cons.
      cbn [PyStr.splitlines_from].
      destruct (PyStr.is_cr c).
      * destruct p as [|c' p'].
        -- exists [cur]. reflexivity.
        -- rewrite append_cons. cbn [String.length] in Hlen.
           destruct (PyStr.is_lf c').
           ++ destruct (IH p' "" rest) as [ls Hls]; [lia|].
              exists (cur :: ls). rewrite Hls. reflexivity.
           ++ destruct (IH (String c' p') "" rest) as [ls Hls]; [cbn; lia|].
              exists (cur :: ls). rewrite <- append_cons, Hls. reflexivity.
      * destruct (PyStr.is_linebreak c).
        -- destruct (IH p "" rest) as [ls Hls]; [lia|].
           exists (cur :: ls). rewrite Hls. reflexivity.
        -- apply IH. lia.
Qed.

(** A listed line without line boundaries is one of the lines the hooks
    get from [splitlines], whatever else is listed. *)
Lemma listed_line_is_split p l :
  no_linebreaks p = true -> In p l -> In p (PyStr.splitlines (unlines l)).
Proof.
  intros Hp. induction l as [|q l IH]; intros Hin; [contradiction|].
  unfold PyStr.splitlines. cbn [unlines fold_right]. fold (unlines l).
  destruct (String.eqb_spec q p) as [-> | Hne].
  - rewrite (splitlines_from_line p Hp). left. reflexivity.
  - destruct Hin as [Heq | Hin]; [contradiction|].
    destruct (splitlines_from_entry (String.length q) q "" (unlines l)) as [ls Hls]; [lia|].
    rewrite Hls. apply in_or_app. right. apply IH, Hin.
Qed.

Lemma listed_is_staged w p :
  no_linebreaks p = true -> PyStr.nonempty (PyStr.strip p) = true ->
  In p (index w) -> PyStr.strip p ∈ PreventNulFile.staged w.
Proof.
  intros Hp Hne Hin. unfold PreventNulFile.staged, PreventNulFile.staged_set.
  rewrite elem_of_list_to_set, list_elem_of_In.
  apply filter_In. split; [|exact Hne].
  apply in_map. apply listed_line_is_split; assumption.
Qed.


(** ** The two gates on the paths git lists *)









(** ** Running a hook twice *)

Lemma nul_exit H w :
  exit_of (PreventNulFile.hook H w)
  = Exited (if bool_decide ("nul" ∈ PreventNulFile.staged w) then 1 else 0).
Proof.
  destruct (decide ("nul" ∈ PreventNulFile.staged w)) as [Hs | Hs].
  - rewrite (nul_staged_run H w Hs), (bool_decide_eq_true_2 _ Hs). reflexivity.
  - rewrite (nul_unstaged_run H w Hs), (bool_decide_eq_false_2 _ Hs). reflexivity.
Qed.

Lemma nul_staged_same_index w w' :
  index w' = index w -> PreventNulFile.staged w' = PreventNulFile.staged w.
Proof. unfold PreventNulFile.staged. intros ->. reflexivity. Qed.

Lemma organize_world H args w :
  world_of (OrganizeScatteredDocs.hook H args w) = organizer_world H args w.
Proof.
  destruct (namespace_cases args) as [-> | ->].
  - rewrite organize_warn_run. reflexivity.
  - rewrite organize_fix_run. reflexivity.
Qed.

(** C7, as stated, fails for the nul-file guard: its first run exits 1 and
    unstages and deletes [nul]; run again on what it left, it exits 0. *)
Lemma nul_guard_rerun_differs :
  exit_of (PreventNulFile.hook quiet_host world_nul_staged) = Exited 1
  /\ exit_of (PreventNulFile.hook quiet_host
                (world_of (PreventNulFile.hook quiet_host world_nul_staged)))
     = Exited 0.
Proof. split; vm_compute; reflexivity. Qed.

(** C7 (amended).  The validator and the scattered-docs hook give the same
    exit code on a second run whenever the collaborator's run left the
    world as it was.  The nul-file guard gives the same exit code on a
    second run when [nul] is not staged or cannot be unstaged; when [nul]
    is staged in a tidy index and is unstaged by the first run, the first
    run exits 1 and the second exits 0. *)
Theorem rerun_exit_codes H w :
  (check_world H w = w ->
   exit_of (ValidateAgentPointers.hook H (world_of (ValidateAgentPointers.hook H w)))
   = exit_of (ValidateAgentPointers.hook H w))
  /\ (forall args, organizer_world H args w = w ->
      exit_of (OrganizeScatteredDocs.hook H args
                 (world_of (OrganizeScatteredDocs.hook H args w)))
      = exit_of (OrganizeScatteredDocs.hook H args w))
  /\ ("nul" ∉ PreventNulFile.staged w \/ may_reset w = false ->
      exit_of (PreventNulFile.hook H (world_of (PreventNulFile.hook H w)))
      = exit_of (PreventNulFile.hook H w))
  /\ (In "nul" (index w) -> forallb tidy (index w) = true -> may_reset w = true ->
      exit_of (PreventNulFile.hook H w) = Exited 1
      /\ exit_of (PreventNulFile.hook H (world_of (PreventNulFile.hook H w))) = Exited 0).
Proof.
  split; [|split; [|split]].
  - intros Hw. rewrite (validator_report_only_leaves_world H w Hw). reflexivity.
  - intros args Hw. rewrite organize_world, Hw. reflexivity.
  - intros Hcase. rewrite !nul_exit.
    rewrite (nul_staged_same_index w); [reflexivity|].
    destruct (decide ("nul" ∈ PreventNulFile.staged w)) as [Hs | Hs].
    + destruct Hcase as [Hn | Hr]; [contradiction|].
      rewrite (nul_staged_run H w Hs). unfold world_of. cbn [fst snd].
      unfold after_reset. rewrite may_reset_after_unlink, Hr.
      apply index_after_unlink.
    + rewrite (nul_unstaged_run H w Hs). apply index_after_unlink.
  - intros Hin Ht Hr.
    assert (Hs : "nul" ∈ PreventNulFile.staged w) by (apply nul_staged_tidy; assumption).
    rewrite !nul_exit, (bool_decide_eq_true_2 _ Hs). split; [reflexivity|].
    rewrite bool_decide_eq_false_2; [reflexivity|].
    rewrite (nul_staged_run H w Hs). unfold world_of. cbn [fst snd].
    unfold after_reset. rewrite may_reset_after_unlink, Hr.
    rewrite nul_staged_tidy.
    + apply unstage_not_in.
    + apply tidy_unstage. rewrite index_after_unlink. exact Ht.
Qed.

Lemma rerun_exit_codes_witness :
  exit_of (ValidateAgentPointers.hook stale_host
             (world_of (ValidateAgentPointers.hook stale_host world_pointer_staged)))
  = exit_of (ValidateAgentPointers.hook stale_host world_pointer_staged)
  /\ exit_of (OrganizeScatteredDocs.hook stale_host warn_mode
                (world_of (OrganizeScatteredDocs.hook stale_host warn_mode world_pointer_staged)))
     = exit_of (OrganizeScatteredDocs.hook stale_host warn_mode world_pointer_staged)
  /\ exit_of (PreventNulFile.hook stale_host
                (world_of (PreventNulFile.hook stale_host world_nul_stray)))
     = exit_of (PreventNulFile.hook stale_host world_nul_stray)
  /\ exit_of (PreventNulFile.hook stale_host world_nul_staged) = Exited 1
  /\ exit_of (PreventNulFile.hook stale_host
                (world_of (PreventNulFile.hook stale_host world_nul_staged)))
     = Exited 0.
Proof.
  destruct (rerun_exit_codes stale_host world_pointer_staged) as (Hv & Ho & _ & _).
  destruct (rerun_exit_codes stale_host world_nul_stray) as (_ & _ & Hn & _).
  destruct (rerun_exit_codes stale_host world_nul_staged) as (_ & _ & _ & Hs).
  split; [apply Hv; reflexivity|].
  split; [apply Ho; reflexivity|].
  split.
  - apply Hn. left.
    apply (bool_decide_eq_false_1 ("nul" ∈ PreventNulFile.staged world_nul_stray)).
    vm_compute. reflexivity.
  - apply Hs; [cbn; tauto | reflexivity | reflexivity].
Defined.


(** ** No hook ends in a traceback *)

Lemma validator_exits H w : exists code, exit_of (ValidateAgentPointers.hook H w) = Exited code.
Proof.
  destruct (relevant_staged w) eqn:Hr.
  - destruct (fs w !! ValidateAgentPointers.generator H) as [n|] eqn:E.
    + rewrite validator_checked_run by (rewrite ?E; eauto). eexists. reflexivity.
    + rewrite validator_missing_run by assumption. eexists. reflexivity.
  - rewrite validator_skipped_run by assumption. eexists. reflexivity.
Qed.

Lemma organize_exits H args w :
  exists code, exit_of (OrganizeScatteredDocs.hook H args w) = Exited code.
Proof.
  destruct (namespace_cases args) as [-> | ->].
  - rewrite organize_warn_run. eexists. reflexivity.
  - rewrite organize_fix_run. eexists. reflexivity.
Qed.

Lemma nul_guard_exits H w : exists code, exit_of (PreventNulFile.hook H w) = Exited code.
Proof. rewrite nul_exit. eexists. reflexivity. Qed.

(** * Further properties of the hooks *)

(** ** The nul-file guard: exit code, frame, messages *)

Lemma nul_hook_world H w :
  world_of (PreventNulFile.hook H w)
  = (if bool_decide ("nul" ∈ PreventNulFile.staged w)
     then after_reset (after_unlink (PreventNulFile.nul_path H) w)
     else after_unlink (PreventNulFile.nul_path H) w).
Proof.
  destruct (decide ("nul" ∈ PreventNulFile.staged w)) as [Hs | Hs].
  - rewrite (nul_staged_run H w Hs), (bool_decide_eq_true_2 _ Hs). reflexivity.
  - rewrite (nul_unstaged_run H w Hs), (bool_decide_eq_false_2 _ Hs). reflexivity.
Qed.

Lemma fs_after_unlink_other p q w :
  q <> p -> fs (after_unlink p w) !! q = fs w !! q.
Proof.
  intros Hq. unfold after_unlink. destruct (_ && _); [|reflexivity].
  cbn [fs set_fs]. apply lookup_delete_ne. congruence.
Qed.

Lemma index_after_reset_other p w :
  under_pathspec "nul" p = false -> In p (index (after_reset w)) <-> In p (index w).
Proof.
  intros Hp. unfold after_reset, unstage. destruct (may_reset w); [|reflexivity].
  cbn [index set_index]. rewrite filter_In, Hp. cbn [negb]. tauto.
Qed.

Lemma permissions_after_unlink p w :
  may_unlink (after_unlink p w) = may_unlink w
  /\ may_reset (after_unlink p w) = may_reset w.
Proof. unfold after_unlink. destruct (_ && _); split; reflexivity. Qed.

Lemma permissions_after_reset w :
  may_unlink (after_reset w) = may_unlink w
  /\ may_reset (after_reset w) = may_reset w.
Proof.
  unfold after_reset. destruct (may_reset w) eqn:E; split; cbn; congruence.
Qed.

(** X1.  The guard's exit code is decided by the staged set alone: it is 1
    exactly when [nul] is in the set the guard computes and 0 exactly when
    it is not, whatever sits on disk and whatever may be deleted or
    unstaged. *)
Theorem nul_guard_exit_iff_staged H w :
  (exit_of (PreventNulFile.hook H w) = Exited 1 <-> "nul" ∈ PreventNulFile.staged w)
  /\ (exit_of (PreventNulFile.hook H w) = Exited 0 <-> "nul" ∉ PreventNulFile.staged w).
Proof.
  rewrite nul_exit.
  destruct (decide ("nul" ∈ PreventNulFile.staged w)) as [Hs | Hs].
  - rewrite (bool_decide_eq_true_2 _ Hs). split; split; try tauto; try discriminate.
  - rewrite (bool_decide_eq_false_2 _ Hs). split; split; try tauto; try discriminate.
Qed.

(** X2.  The guard touches one path of the working tree and changes the
    index only through its own [git reset HEAD nul]: every path other than
    its own is after the run what it was before, the permissions are
    unchanged, the index is unchanged when [nul] is not in the staged set,
    and when it is, the world left is the one that reset leaves after the
    unlink. *)
Theorem nul_guard_touches_only_nul H w :
  (forall q, q <> PreventNulFile.nul_path H ->
             fs (world_of (PreventNulFile.hook H w)) !! q = fs w !! q)
  /\ may_unlink (world_of (PreventNulFile.hook H w)) = may_unlink w
  /\ may_reset (world_of (PreventNulFile.hook H w)) = may_reset w
  /\ ("nul" ∉ PreventNulFile.staged w ->
      index (world_of (PreventNulFile.hook H w)) = index w)
  /\ ("nul" ∈ PreventNulFile.staged w ->
      world_of (PreventNulFile.hook H w)
      = (git ["reset"; "HEAD"; "nul"] (after_unlink (PreventNulFile.nul_path H) w)).2).
Proof.
  rewrite nul_hook_world.
  destruct (decide ("nul" ∈ PreventNulFile.staged w)) as [Hs | Hs].
  - rewrite (bool_decide_eq_true_2 _ Hs). split; [|split; [|split; [|split]]].
    + intros q Hq. rewrite fs_after_reset. apply fs_after_unlink_other, Hq.
    + rewrite (proj1 (permissions_after_reset _)).
      apply (proj1 (permissions_after_unlink _ _)).
    + rewrite (proj2 (permissions_after_reset _)).
      apply (proj2 (permissions_after_unlink _ _)).
    + intros Hn. contradiction.
    + intros _. unfold after_reset.
      change (git ["reset"; "HEAD"; "nul"] (after_unlink (PreventNulFile.nul_path H) w))
        with (if may_reset (after_unlink (PreventNulFile.nul_path H) w)
              then ((0, "", ""), unstage "nul" (after_unlink (PreventNulFile.nul_path H) w))
              else ((128, "", "fatal: reset failed" ++ nl),
                    after_unlink (PreventNulFile.nul_path H) w)).
      destruct (may_reset (after_unlink (PreventNulFile.nul_path H) w)); reflexivity.
  - rewrite (bool_decide_eq_false_2 _ Hs). split; [|split; [|split; [|split]]].
    + intros q Hq. apply fs_after_unlink_other, Hq.
    + apply (proj1 (permissions_after_unlink _ _)).
    + apply (proj2 (permissions_after_unlink _ _)).
    + intros _. apply index_after_unlink.
    + intros Hn. contradiction.
Qed.

Lemma nul_guard_touches_only_nul_witness :
  fs (world_of (PreventNulFile.hook quiet_host world_pointer_staged))
    !! "/repo/.agent/scripts/generate_pointers.py" = Some RegularFile
  /\ index (world_of (PreventNulFile.hook quiet_host world_nul_stray))
     = index world_nul_stray.
Proof.
  destruct (nul_guard_touches_only_nul quiet_host world_pointer_staged) as (Hfs & _).
  destruct (nul_guard_touches_only_nul quiet_host world_nul_stray)
    as (_ & _ & _ & Hindex & _).
  split.
  - rewrite Hfs; [reflexivity | vm_compute; discriminate].
  - apply Hindex.
    apply (bool_decide_eq_false_1 ("nul" ∈ PreventNulFile.staged world_nul_stray)).
    vm_compute. reflexivity.
Defined.



(** X4.  On every path the guard prints on stdout only, looks at and
    unlinks no path but its own, and spawns nothing but the two git
    commands, both captured and without a working directory: no
    collaborator script is ever run and nothing goes to stderr. *)
Theorem nul_guard_only_git_and_its_path H w :
  Forall (guard_may H) (trace_of (PreventNulFile.hook H w)).
Proof.
  destruct (decide ("nul" ∈ PreventNulFile.staged w)) as [Hs | Hs].
  - rewrite (nul_staged_run H w Hs). unfold trace_of, nul_banner, nul_cleanup_calls.
    cbn [snd].
    destruct (fs w !! PreventNulFile.nul_path H) as [[|]|]; cbn [app];
      all_guard_permitted.
  - rewrite (nul_unstaged_run H w Hs). unfold trace_of, nul_sweep_calls. cbn [snd].
    destruct (fs w !! PreventNulFile.nul_path H) as [[|]|]; all_guard_permitted.
Qed.

(** X5.  When [nul] is staged the last thing the guard prints is always
    [Fixed! Please commit again.]; it does so even when the file may not
    be deleted and the index may not be rewritten, in which case the world
    is left exactly as it was found. *)
Theorem nul_guard_says_fixed_regardless H w :
  "nul" ∈ PreventNulFile.staged w ->
  (exists before,
      trace_of (PreventNulFile.hook H w)
      = (before ++ [Output Stdout ("Fixed! Please commit again." ++ nl)])%list)
  /\ (may_unlink w = false -> may_reset w = false ->
      world_of (PreventNulFile.hook H w) = w).
Proof.
  intros Hs. rewrite (nul_staged_run H w Hs). unfold trace_of, world_of. cbn [fst snd].
  split.
  - exists (Spawn git_diff_command None true :: nul_banner
            ++ nul_cleanup_calls (PreventNulFile.nul_path H) w
            ++ [Spawn git_reset_nul_command None true])%list.
    cbn [app]. f_equal. rewrite <- !app_assoc. reflexivity.
  - intros Hu Hr. unfold after_reset, after_unlink.
    rewrite Hu, andb_false_r, Hr. reflexivity.
Qed.

Lemma nul_guard_says_fixed_regardless_witness :
  (exists before,
      trace_of (PreventNulFile.hook quiet_host world_nul_locked)
      = (before ++ [Output Stdout ("Fixed! Please commit again." ++ nl)])%list)
  /\ world_of (PreventNulFile.hook quiet_host world_nul_locked) = world_nul_locked.
Proof.
  assert (Hs : "nul" ∈ PreventNulFile.staged world_nul_locked) by by_evaluation.
  destruct (nul_guard_says_fixed_regardless quiet_host world_nul_locked Hs)
    as (Hlast & Hworld).
  split; [exact Hlast | apply Hworld; reflexivity].
Defined.



(** ** Names that are [nul] only once stripped *)

Lemma lstrip_blanks n s : PyStr.lstrip (blanks n ++ s) = PyStr.lstrip s.
Proof.
  induction n as [|n IH]; [reflexivity|].
  change (blanks (S n) ++ s) with (String " "%char (blanks n ++ s)).
  cbn [PyStr.lstrip]. exact IH.
Qed.

Lemma rstrip_blanks n : PyStr.rstrip (blanks n) = "".
Proof.
  induction n as [|n IH]; [reflexivity|].
  cbn [blanks PyStr.rstrip]. rewrite IH. reflexivity.
Qed.

Lemma strip_padded_nul a b : PyStr.strip (padded_nul a b) = "nul".
Proof.
  unfold PyStr.strip, padded_nul. rewrite lstrip_blanks.
  change ("nul" ++ blanks b)
    with (String "n"%char (String "u"%char (String "l"%char (blanks b)))).
  cbn [PyStr.lstrip]. change (PyStr.isspace "n"%char) with false. cbv iota.
  cbn [PyStr.rstrip]. rewrite rstrip_blanks. reflexivity.
Qed.

Lemma padded_nul_not_under_pathspec a b :
  (0 < a + b)%nat -> under_pathspec "nul" (padded_nul a b) = false.
Proof.
  intros Hab. unfold padded_nul. destruct a as [|a].
  - destruct b as [|b]; [lia|]. reflexivity.
  - reflexivity.
Qed.

Lemma padded_nul_no_linebreaks a b : no_linebreaks (padded_nul a b) = true.
Proof.
  assert (Hb : forall n s, no_linebreaks s = true -> no_linebreaks (blanks n ++ s) = true).
  { induction n as [|n IH]; intros s Hs; [exact Hs|].
    change (blanks (S n) ++ s) with (String " "%char (blanks n ++ s)).
    cbn [no_linebreaks]. rewrite (IH s Hs). reflexivity. }
  assert (Hb0 : forall n, no_linebreaks (blanks n) = true)
    by (induction n as [|n IH]; [reflexivity | exact IH]).
  unfold padded_nul. apply Hb.
  change ("nul" ++ blanks b)
    with (String "n"%char (String "u"%char (String "l"%char (blanks b)))).
  cbn [no_linebreaks]. rewrite Hb0. reflexivity.
Qed.

(** X7.  The guard tests the stripped line but unstages the literal name.
    A staged path that is [nul] with blanks before or after it (git lists
    such a name as it is) makes the guard exit 1; the path is still staged
    afterwards, and the next run exits 1 again. *)
Theorem nul_guard_padded_name H w a b :
  (0 < a + b)%nat ->
  In (padded_nul a b) (index w) ->
  exit_of (PreventNulFile.hook H w) = Exited 1
  /\ In (padded_nul a b) (index (world_of (PreventNulFile.hook H w)))
  /\ exit_of (PreventNulFile.hook H (world_of (PreventNulFile.hook H w))) = Exited 1.
Proof.
  intros Hab Hin.
  assert (Hstaged : forall w', In (padded_nul a b) (index w') ->
                               "nul" ∈ PreventNulFile.staged w').
  { intros w' Hin'. rewrite <- (strip_padded_nul a b).
    apply listed_is_staged; [apply padded_nul_no_linebreaks | | exact Hin'].
    rewrite strip_padded_nul. reflexivity. }
  pose proof (Hstaged w Hin) as Hs.
  assert (Hw : world_of (PreventNulFile.hook H w)
               = after_reset (after_unlink (PreventNulFile.nul_path H) w)).
  { rewrite nul_hook_world, (bool_decide_eq_true_2 _ Hs). reflexivity. }
  assert (Hin' : In (padded_nul a b) (index (world_of (PreventNulFile.hook H w)))).
  { rewrite Hw. apply index_after_reset_other.
    - apply padded_nul_not_under_pathspec, Hab.
    - rewrite index_after_unlink. exact Hin. }
  split; [|split; [exact Hin'|]].
  - rewrite nul_exit, (bool_decide_eq_true_2 _ Hs). reflexivity.
  - rewrite nul_exit, (bool_decide_eq_true_2 _ (Hstaged _ Hin')). reflexivity.
Qed.

Lemma nul_guard_padded_name_witness :
  exit_of (PreventNulFile.hook quiet_host world_nul_padded) = Exited 1
  /\ In "nul " (index (world_of (PreventNulFile.hook quiet_host world_nul_padded)))
  /\ exit_of (PreventNulFile.hook quiet_host
                (world_of (PreventNulFile.hook quiet_host world_nul_padded))) = Exited 1.
Proof.
  apply (nul_guard_padded_name quiet_host world_nul_padded 0 1); [lia | cbn; tauto].
Defined.

(** ** The agent-pointer validator: exit code, missing generator, pattern *)


(** X9.  A matching path is staged and the generator script is missing:
    the validator prints its notice on stdout, tests the path, writes
    [Error: .agent/scripts/generate_pointers.py not found.] to stderr and
    exits 1; it spawns nothing after the staged-path query and leaves the
    world as it found it. *)
Theorem validator_stops_without_generator H w :
  relevant_staged w = true ->
  fs w !! ValidateAgentPointers.generator H = None ->
  ValidateAgentPointers.hook H w =
  (Exited 1, w,
   [Spawn git_diff_command None true;
    Output Stdout ("Detected changes to agent files or pointer files" ++ nl);
    Stat (ValidateAgentPointers.generator H);
    Output Stderr ("Error: .agent/scripts/generate_pointers.py not found." ++ nl)]).
Proof. intros Hr E. rewrite (validator_missing_run H w Hr E). reflexivity. Qed.

Lemma validator_stops_without_generator_witness :
  exit_of (ValidateAgentPointers.hook stale_host world_pointer_staged_no_generator) = Exited 1
  /\ calls (trace_of (ValidateAgentPointers.hook stale_host world_pointer_staged_no_generator))
     = [Spawn git_diff_command None true; Stat "/repo/.agent/scripts/generate_pointers.py"].
Proof.
  assert (Hr : relevant_staged world_pointer_staged_no_generator = true)
    by (vm_compute; reflexivity).
  assert (E : fs world_pointer_staged_no_generator
                !! ValidateAgentPointers.generator stale_host = None)
    by (vm_compute; reflexivity).
  rewrite (validator_stops_without_generator stale_host _ Hr E).
  split; reflexivity.
Defined.

Lemma startswith_spec p s :
  PyStr.startswith p s = true <-> exists rest, s = p ++ rest.
Proof.
  revert s. induction p as [|a p IH]; intros s.
  - split; [intros _; exists s; reflexivity | reflexivity].
  - destruct s as [|b s].
    + split; [discriminate | intros [rest Hrest]; discriminate].
    + cbn [PyStr.startswith]. rewrite andb_true_iff, Ascii.eqb_eq, IH. split.
      * intros [-> [rest ->]]. exists rest. reflexivity.
      * intros [rest Hrest].
        change (String a p ++ rest) with (String a (p ++ rest)) in Hrest.
        injection Hrest as -> ->. split; [reflexivity | exists rest; reflexivity].
Qed.

(** X10.  [RELEVANT_PATTERN] accepts a path exactly when the path begins
    with one of its five literals: [.agent/] or one of the four pointer
    file names, followed by anything.  So a path that is accepted stays
    accepted however it is extended (CLAUDE.md.bak, AGENTS.md/x). *)
Theorem relevant_pattern_is_a_prefix_test p :
  (PyRe.matches ValidateAgentPointers.RELEVANT_PATTERN p = true
   <-> exists lit rest, In lit relevant_prefixes /\ p = lit ++ rest)
  /\ (forall more,
         PyRe.matches ValidateAgentPointers.RELEVANT_PATTERN p = true ->
         PyRe.matches ValidateAgentPointers.RELEVANT_PATTERN (p ++ more) = true).
Proof.
  assert (Hchar : forall q,
             PyRe.matches ValidateAgentPointers.RELEVANT_PATTERN q = true
             <-> exists lit rest, In lit relevant_prefixes /\ q = lit ++ rest).
  { intros q. unfold ValidateAgentPointers.RELEVANT_PATTERN, relevant_prefixes.
    cbn [PyRe.matches]. rewrite !orb_true_iff, !startswith_spec. split.
    - intros [[rest ->] | [[rest ->] | [[rest ->] | [[rest ->] | [rest ->]]]]];
        eexists; exists rest; (split; [|reflexivity]); cbn [In]; tauto.
    - intros (lit & rest & Hin & ->). cbn [In] in Hin.
      destruct Hin as [<- | [<- | [<- | [<- | [<- | []]]]]]; eauto 10. }
  split; [apply Hchar|].
  intros more Hp. apply Hchar in Hp as (lit & rest & Hin & ->).
  apply Hchar. exists lit, (rest ++ more). split; [exact Hin|].
  apply append_assoc.
Qed.

(** ** The scattered-docs hook: what it does and what it prints *)

(** X11.  Besides printing, the hook does one thing in either mode: it
    spawns the organizer once, in [ROOT_DIR], captured in warn mode and not
    captured with [--auto-fix].  It never asks git for the staged paths and
    never looks at a file, and the world it leaves is the one the organizer
    left. *)
Theorem organize_only_call H args w :
  calls (trace_of (OrganizeScatteredDocs.hook H args w))
  = [Spawn (OrganizeScatteredDocs.organizer_command H args)
       (Some (OrganizeScatteredDocs.ROOT_DIR H))
       (negb (OrganizeScatteredDocs.auto_fix args))]
  /\ world_of (OrganizeScatteredDocs.hook H args w) = organizer_world H args w.
Proof.
  split; [|apply organize_world].
  destruct (namespace_cases args) as [-> | ->].
  - rewrite organize_warn_run. unfold trace_of, scattered_report. cbn [snd].
    destruct (_ =? 0); reflexivity.
  - rewrite organize_fix_run. reflexivity.
Qed.

(** X12.  What warn mode prints.  When the dry run exits 0 the hook prints
    the success line and nothing else: whatever the organizer wrote is
    discarded.  Otherwise the organizer's captured stdout appears verbatim
    between the heading and the two hints.  In both cases nothing is
    written to stderr. *)
Theorem organize_warn_output H w :
  written Stdout (trace_of (OrganizeScatteredDocs.hook H warn_mode w))
  = (if organizer_rc H warn_mode w =? 0
     then "SUCCESS: All documentation files are properly organized" ++ nl
     else ("WARNING: Scattered documentation files detected!" ++ nl
           ++ nl ++ "The following files should be organized:" ++ nl)
          ++ organizer_out H warn_mode w
          ++ (nl
              ++ nl ++ "To automatically organize these files, run:" ++ nl
              ++ "  python git-hooks/checks/python/organize_docs.py --auto-move" ++ nl
              ++ nl ++ "Or add --auto-fix to this hook to organize automatically on commit."
              ++ nl))
  /\ written Stderr (trace_of (OrganizeScatteredDocs.hook H warn_mode w)) = "".
Proof.
  rewrite organize_warn_run. unfold trace_of, scattered_report. cbn [snd].
  destruct (organizer_rc H warn_mode w =? 0); [split; reflexivity|].
  split; [|reflexivity].
  cbn [written]. rewrite !decide_True by reflexivity.
  rewrite !append_assoc. reflexivity.
Qed.

(** X13.  What [--auto-fix] mode prints.  The organizer's stdout and stderr
    are not captured: they go to the hook's own streams as the child writes
    them.  The hook itself prints the announcement and one closing line,
    SUCCESS when the organizer's exit code (which is also its own) is 0 and
    ERROR otherwise, and writes nothing to stderr. *)
Theorem organize_fix_output H w :
  written_by_hook Stdout (trace_of (OrganizeScatteredDocs.hook H fix_mode w))
  = ("Auto-organizing scattered documentation files..." ++ nl)
    ++ (if organizer_rc H fix_mode w =? 0
        then "SUCCESS: Documentation organization completed successfully" ++ nl
        else "ERROR: Documentation organization failed" ++ nl)
  /\ exit_of (OrganizeScatteredDocs.hook H fix_mode w) = Exited (organizer_rc H fix_mode w)
  /\ written_by_hook Stderr (trace_of (OrganizeScatteredDocs.hook H fix_mode w)) = ""
  /\ In (Child Stdout (organizer_out H fix_mode w))
       (trace_of (OrganizeScatteredDocs.hook H fix_mode w))
  /\ In (Child Stderr (organizer_err H fix_mode w))
       (trace_of (OrganizeScatteredDocs.hook H fix_mode w)).
Proof.
  rewrite organize_fix_run. unfold trace_of, exit_of. cbn [fst snd].
  split; [|split; [reflexivity | split; [reflexivity | split; cbn [In]; tauto]]].
  destruct (organizer_rc H fix_mode w =? 0); reflexivity.
Qed.

(** ** Where the scattered-docs hook looks for the organizer *)

Lemma before_last_sep_component n :
  no_sep n = true -> PyPath.before_last_sep n = None.
Proof.
  induction n as [|c n IH]; intros Hn; [reflexivity|].
  cbn [no_sep] in Hn. apply andb_true_iff in Hn as [Hc Hn].
  apply negb_true_iff in Hc.
  cbn [PyPath.before_last_sep]. rewrite (IH Hn), Hc. reflexivity.
Qed.

Lemma before_last_sep_joined d n :
  no_sep n = true -> PyPath.before_last_sep (d ++ String PyPath.sep n) = Some d.
Proof.
  intros Hn. induction d as [|c d IH].
  - change ("" ++ String PyPath.sep n) with (String PyPath.sep n).
    cbn [PyPath.before_last_sep]. rewrite (before_last_sep_component n Hn).
    reflexivity.
  - change (String c d ++ String PyPath.sep n) with (String c (d ++ String PyPath.sep n)).
    cbn [PyPath.before_last_sep]. rewrite IH. reflexivity.
Qed.

Lemma parent_div d n :
  d <> "" -> no_sep n = true -> PyPath.parent (PyPath.div d n) = d.
Proof.
  intros Hd Hn. unfold PyPath.div, PyPath.parent.
  destruct (String.eqb_spec d "/") as [-> | Hroot].
  - change ("/" ++ n) with ("" ++ String PyPath.sep n).
    rewrite (before_last_sep_joined "" n Hn). reflexivity.
  - change (d ++ "/" ++ n) with (d ++ String PyPath.sep n).
    rewrite (before_last_sep_joined d n Hn).
    destruct d; [contradiction | reflexivity].
Qed.

Lemma div_nonempty d n : PyPath.div d n <> "".
Proof.
  unfold PyPath.div. destruct (String.eqb d "/"); [discriminate|].
  destruct d; discriminate.
Qed.

(** X14.  [ROOT_DIR] is the directory three levels above the directory of
    the hook's file.  For a hook installed as [root/a/b/c/file], the
    organizer is looked for at
    [root/git-hooks/checks/python/organize_docs.py] and is run with [root]
    as its working directory, whatever [a], [b] and [c] are called. *)
Theorem organize_root_dir H root a b c file :
  root <> "" ->
  no_sep a = true -> no_sep b = true -> no_sep c = true -> no_sep file = true ->
  hook_file H = PyPath.div (PyPath.div (PyPath.div (PyPath.div root a) b) c) file ->
  OrganizeScatteredDocs.ROOT_DIR H = root
  /\ OrganizeScatteredDocs.ORGANIZE_SCRIPT H
     = PyPath.div (PyPath.div (PyPath.div (PyPath.div root "git-hooks") "checks") "python")
         "organize_docs.py"
  /\ forall args w,
       In (Spawn [sys_executable H;
                  PyPath.div (PyPath.div (PyPath.div (PyPath.div root "git-hooks") "checks")
                                "python") "organize_docs.py";
                  if OrganizeScatteredDocs.auto_fix args then "--auto-move" else "--dry-run"]
             (Some root) (negb (OrganizeScatteredDocs.auto_fix args)))
          (trace_of (OrganizeScatteredDocs.hook H args w)).
Proof.
  intros Hroot Ha Hb Hc Hfile Hhook.
  assert (Hr : OrganizeScatteredDocs.ROOT_DIR H = root).
  { unfold OrganizeScatteredDocs.ROOT_DIR, OrganizeScatteredDocs.SCRIPT_DIR.
    rewrite Hhook.
    rewrite (parent_div _ file (div_nonempty _ _) Hfile).
    rewrite (parent_div _ c (div_nonempty _ _) Hc).
    rewrite (parent_div _ b (div_nonempty _ _) Hb).
    apply (parent_div root a Hroot Ha). }
  assert (Hs : OrganizeScatteredDocs.ORGANIZE_SCRIPT H
               = PyPath.div (PyPath.div (PyPath.div (PyPath.div root "git-hooks") "checks")
                               "python") "organize_docs.py").
  { unfold OrganizeScatteredDocs.ORGANIZE_SCRIPT. rewrite Hr. reflexivity. }
  split; [exact Hr|]. split; [exact Hs|].
  intros args w. rewrite <- Hs, <- Hr.
  change [sys_executable H; OrganizeScatteredDocs.ORGANIZE_SCRIPT H;
          if OrganizeScatteredDocs.auto_fix args then "--auto-move" else "--dry-run"]
    with (OrganizeScatteredDocs.organizer_command H args).
  destruct (namespace_cases args) as [-> | ->].
  - rewrite organize_warn_run. left. reflexivity.
  - rewrite organize_fix_run. right. left. reflexivity.
Qed.

Lemma organize_root_dir_witness :
  OrganizeScatteredDocs.ROOT_DIR quiet_host = "/repo"
  /\ OrganizeScatteredDocs.ORGANIZE_SCRIPT quiet_host
     = "/repo/git-hooks/checks/python/organize_docs.py".
Proof.
  destruct (organize_root_dir quiet_host "/repo" "git-hooks" "checks" "general"
              "organize_scattered_docs.py") as (Hr & Hs & _);
    try reflexivity; try discriminate.
  split; [exact Hr | exact Hs].
Defined.

(** ** The staged paths the hooks compute *)

Lemma no_linebreaks_app a b :
  no_linebreaks (a ++ b) = no_linebreaks a && no_linebreaks b.
Proof.
  induction a as [|c a IH]; [reflexivity|].
  change (String c a ++ b) with (String c (a ++ b)).
  cbn [no_linebreaks]. rewrite IH, andb_assoc. reflexivity.
Qed.

Lemma splitlines_from_no_linebreaks n :
  forall s cur,
    (String.length s <= n)%nat -> no_linebreaks cur = true ->
    forallb no_linebreaks (PyStr.splitlines_from cur s) = true.
Proof.
  induction n as [|n IH]; intros s cur Hlen Hcur.
  - destruct s; [|cbn in Hlen; lia].
    cbn [PyStr.splitlines_from]. destruct (PyStr.nonempty cur); cbn [forallb];
      rewrite ?Hcur; reflexivity.
  - destruct s as [|c rest].
    + cbn [PyStr.splitlines_from]. destruct (PyStr.nonempty cur); cbn [forallb];
        rewrite ?Hcur; reflexivity.
    + cbn [String.length] in Hlen. cbn [PyStr.splitlines_from].
      destruct (PyStr.is_cr c) eqn:Hcr.
      * destruct rest as [|c' rest'].
        -- cbn [forallb]. rewrite Hcur. apply (IH "" ""); [cbn; lia | reflexivity].
        -- cbn [String.length] in Hlen.
           destruct (PyStr.is_lf c'); cbn [forallb]; rewrite Hcur; cbn [andb];
             apply IH; cbn [String.length]; try lia; reflexivity.
      * destruct (PyStr.is_linebreak c) eqn:Hlb.
        -- cbn [forallb]. rewrite Hcur. apply IH; [lia | reflexivity].
        -- apply IH; [lia|]. rewrite no_linebreaks_app, Hcur.
           cbn [no_linebreaks]. rewrite Hcr, Hlb. reflexivity.
Qed.

Lemma splitlines_no_linebreaks out :
  forallb no_linebreaks (PyStr.splitlines out) = true.
Proof.
  apply (splitlines_from_no_linebreaks (String.length out)); [lia | reflexivity].
Qed.

Lemma no_linebreaks_lstrip s :
  no_linebreaks s = true -> no_linebreaks (PyStr.lstrip s) = true.
Proof.
  induction s as [|c s IH]; intros Hs; [reflexivity|].
  cbn [PyStr.lstrip]. destruct (PyStr.isspace c); [|exact Hs].
  cbn [no_linebreaks] in Hs. apply andb_true_iff in Hs as [_ Hs]. apply IH, Hs.
Qed.

Lemma no_linebreaks_rstrip s :
  no_linebreaks s = true -> no_linebreaks (PyStr.rstrip s) = true.
Proof.
  induction s as [|c s IH]; intros Hs; [reflexivity|].
  cbn [no_linebreaks] in Hs. apply andb_true_iff in Hs as [Hc Hs].
  cbn [PyStr.rstrip].
  destruct (PyStr.isspace c && negb (PyStr.nonempty (PyStr.rstrip s))); [reflexivity|].
  cbn [no_linebreaks]. rewrite Hc, (IH Hs). reflexivity.
Qed.

Lemma first_is_space_lstrip s : first_is_space (PyStr.lstrip s) = false.
Proof.
  induction s as [|c s IH]; [reflexivity|].
  cbn [PyStr.lstrip]. destruct (PyStr.isspace c) eqn:Hc; [exact IH | exact Hc].
Qed.

Lemma first_is_space_rstrip s :
  first_is_space s = false -> first_is_space (PyStr.rstrip s) = false.
Proof.
  destruct s as [|c s]; [reflexivity|]. cbn [first_is_space]. intros Hc.
  cbn [PyStr.rstrip]. rewrite Hc. exact Hc.
Qed.

Lemma last_is_space_rstrip s : last_is_space (PyStr.rstrip s) = false.
Proof.
  induction s as [|c s IH]; [reflexivity|].
  cbn [PyStr.rstrip]. destruct (PyStr.rstrip s) as [|c' s'] eqn:Hr.
  - cbn [PyStr.nonempty negb]. rewrite andb_true_r.
    destruct (PyStr.isspace c) eqn:Hc; [reflexivity | exact Hc].
  - cbn [PyStr.nonempty negb]. rewrite andb_false_r. exact IH.
Qed.

Lemma tidy_strip s :
  no_linebreaks s = true -> PyStr.nonempty (PyStr.strip s) = true ->
  tidy (PyStr.strip s) = true.
Proof.
  intros Hs Hne. unfold tidy. rewrite Hne. unfold PyStr.strip.
  rewrite (no_linebreaks_rstrip _ (no_linebreaks_lstrip _ Hs)).
  rewrite (first_is_space_rstrip _ (first_is_space_lstrip s)).
  rewrite last_is_space_rstrip. reflexivity.
Qed.

Lemma staged_list_all_tidy lines :
  forallb no_linebreaks lines = true ->
  forallb tidy (ValidateAgentPointers.staged_list lines) = true.
Proof.
  unfold ValidateAgentPointers.staged_list. rewrite !forallb_forall.
  intros Hl p Hin. apply filter_In in Hin as [Hin Hne].
  apply in_map_iff in Hin as (line & <- & Hline).
  apply tidy_strip; [apply Hl, Hline | exact Hne].
Qed.

(** X15.  Whatever git prints, every entry of the staged list and of the
    staged set the hooks compute is a tidy name: not empty, free of line
    boundaries, and without white space at either end. *)
Theorem staged_entries_are_tidy out :
  forallb tidy (ValidateAgentPointers.staged_list (PyStr.splitlines out)) = true
  /\ (forall p, p ∈ PreventNulFile.staged_set (PyStr.splitlines out) -> tidy p = true).
Proof.
  assert (Hall : forallb tidy (ValidateAgentPointers.staged_list (PyStr.splitlines out))
                 = true)
    by apply staged_list_all_tidy, splitlines_no_linebreaks.
  split; [exact Hall|].
  intros p Hp. unfold PreventNulFile.staged_set in Hp.
  apply elem_of_list_to_set, list_elem_of_In in Hp.
  rewrite forallb_forall in Hall. apply Hall, Hp.
Qed.

(** X16.  The list of staged paths the validator works on is git's list,
    in the same order and with nothing dropped or altered, exactly when
    every path git lists is tidy; and then the guard's staged set has the
    same members. *)
Theorem staged_is_index_iff_tidy w :
  (ValidateAgentPointers.staged w = index w <-> forallb tidy (index w) = true)
  /\ (forallb tidy (index w) = true ->
      forall p, p ∈ PreventNulFile.staged w <-> In p (index w)).
Proof.
  split.
  - split.
    + intros Heq. rewrite <- Heq. unfold ValidateAgentPointers.staged.
      apply staged_list_all_tidy, splitlines_no_linebreaks.
    + apply validator_staged_tidy.
  - intros Ht p. unfold PreventNulFile.staged, PreventNulFile.staged_set.
    fold (ValidateAgentPointers.staged_list (PyStr.splitlines (unlines (index w)))).
    rewrite (staged_list_tidy _ Ht), elem_of_list_to_set. apply list_elem_of_In.
Qed.

Lemma staged_is_index_iff_tidy_witness :
  ValidateAgentPointers.staged world_nul_staged = ["src/main.py"; "nul"]
  /\ ("nul" ∈ PreventNulFile.staged world_nul_staged <-> In "nul" (index world_nul_staged))
  /\ ValidateAgentPointers.staged world_nul_padded <> index world_nul_padded.
Proof.
  destruct (staged_is_index_iff_tidy world_nul_staged) as (Hlist & Hset).
  destruct (staged_is_index_iff_tidy world_nul_padded) as (Hpad & _).
  split; [apply Hlist; reflexivity|]. split; [apply Hset; reflexivity|].
  intros Heq. apply Hpad in Heq. discriminate Heq.
Defined.

(** ** The regenerate hint of the validator *)

Lemma after_last_sep_component n :
  no_sep n = true -> PyPath.after_last_sep n = None.
Proof.
  induction n as [|c n IH]; intros Hn; [reflexivity|].
  cbn [no_sep] in Hn. apply andb_true_iff in Hn as [Hc Hn].
  apply negb_true_iff in Hc.
  cbn [PyPath.after_last_sep]. rewrite (IH Hn), Hc. reflexivity.
Qed.

Lemma after_last_sep_joined d n :
  no_sep n = true -> PyPath.after_last_sep (d ++ String PyPath.sep n) = Some n.
Proof.
  intros Hn. induction d as [|c d IH].
  - change ("" ++ String PyPath.sep n) with (String PyPath.sep n).
    cbn [PyPath.after_last_sep]. rewrite (after_last_sep_component n Hn).
    reflexivity.
  - change (String c d ++ String PyPath.sep n) with (String c (d ++ String PyPath.sep n)).
    cbn [PyPath.after_last_sep]. rewrite IH. reflexivity.
Qed.

Lemma name_div d n : no_sep n = true -> PyPath.name (PyPath.div d n) = n.
Proof.
  intros Hn. unfold PyPath.div, PyPath.name.
  destruct (String.eqb d "/").
  - change ("/" ++ n) with ("" ++ String PyPath.sep n).
    rewrite (after_last_sep_joined "" n Hn). reflexivity.
  - change (d ++ "/" ++ n) with (d ++ String PyPath.sep n).
    rewrite (after_last_sep_joined d n Hn). reflexivity.
Qed.

(** X17.  When the generator reports stale pointers, the command the
    validator prints to regenerate them names the interpreter by its file
    name only, without its directory, and the generator by its full path
    under the current directory. *)
Theorem validator_hint_names_interpreter H w dir exe :
  no_sep exe = true ->
  sys_executable H = PyPath.div dir exe ->
  relevant_staged w = true ->
  is_Some (fs w !! ValidateAgentPointers.generator H) ->
  check_rc H w <> 0 ->
  In (Output Stdout
        ("  " ++ exe ++ " "
         ++ PyPath.div (PyPath.div (PyPath.div (cwd H) ".agent") "scripts")
              "generate_pointers.py" ++ nl))
     (trace_of (ValidateAgentPointers.hook H w)).
Proof.
  intros Hexe Hsys Hr E Hrc.
  rewrite (validator_checked_run H w Hr E). unfold trace_of. cbn [snd].
  apply Z.eqb_neq in Hrc. rewrite Hrc.
  unfold validator_opening, out_of_sync_report. cbn [app].
  rewrite Hsys, (name_div dir exe Hexe).
  do 6 right. left. reflexivity.
Qed.

Lemma validator_hint_names_interpreter_witness :
  In (Output Stdout
        ("  python3 /repo/.agent/scripts/generate_pointers.py" ++ nl))
     (trace_of (ValidateAgentPointers.hook stale_host world_pointer_staged)).
Proof.
  apply (validator_hint_names_interpreter stale_host world_pointer_staged
           "/usr/bin" "python3").
  - reflexivity.
  - reflexivity.
  - vm_compute. reflexivity.
  - vm_compute. eauto.
  - vm_compute. discriminate.
Defined.
